(** * The Dachau vaccination-appointment plugin and the bot's configuration

    A shallow embedding of [impfbot/contrib/de/bavaria/dachau.py] and
    [impfbot/main/config.py].

    Python [str] values are modelled as [string]; a character stands for the
    code point of the same number, so the texts covered are those of the
    Latin-1 range.  The third-party parsers (bs4 with html.parser,
    json.loads, the YAML reader) and the network are taken as an
    environment, [Env]; what the plugin itself does with their results is
    written out: the searches in the parsed tree, the string surgery on the
    inline script, the compiled ['%Y-%m-%d'] pattern of [strptime], the
    calendar check of [datetime.date]. *)

From Stdlib Require Import ZArith String Ascii List Bool Lia.
From stdpp Require Import base strings list gmap.

#[local] Set Warnings "-register-all".
#[local] Open Scope Z_scope.

(** ** Exceptions and the effect monad *)

(** The exception classes that can leave the two modules. *)
Inductive exn : Type :=
| ValueError (msg : string)
| JSONDecodeError            (* json.JSONDecodeError, a subclass of ValueError *)
| KeyError (key : string)
| TypeError
| AttributeError
| HTTPError                  (* requests.exceptions.HTTPError *)
| RequestException           (* any other failure of the transport *)
| OSError                    (* open() on a file that cannot be read *)
| ConfigError                (* the deserialiser's failure, as the spec names it *)
| OtherError (cls : string). (* anything else a library may raise *)

(** [isinstance(e, ValueError)]: the class the specification calls
    ParseError. *)
Definition is_ValueError (e : exn) : bool :=
  match e with
  | ValueError _ | JSONDecodeError => true
  | _ => false
  end.

Inductive result (A : Type) : Type :=
| Return (a : A)
| Raise (e : exn).
Arguments Return {A} a.
Arguments Raise {A} e.

(** ** Python values *)

(** The values json.loads and the YAML reader build.  A [PDict] lists its
    items in insertion order, the order in which iterating the dict yields
    its keys; subscripting reads the first item with the key. *)
Inductive PyVal : Type :=
| PNone
| PBool (b : bool)
| PInt (z : Z)
| PFloat (repr : string)
| PStr (s : string)
| PList (l : list PyVal)
| PDict (items : list (string * PyVal)).

Module logging.

(** What [Logger.error(msg, *args)] records: the message is kept with its
    arguments, unformatted, as logging.LogRecord does. *)
Record LogRecord : Type := mkLogRecord {
  name : string;
  levelname : string;
  msg : string;
  args : list PyVal
}.

End logging.

(** A computation either returns or raises, and emits log records on the
    way; the records emitted before an exception are kept. *)
Definition M (A : Type) : Type := result A * list logging.LogRecord.

Definition ret {A} (a : A) : M A := (Return a, []).

Definition raise {A} (e : exn) : M A := (Raise e, []).

Definition bind {A B} (m : M A) (k : A -> M B) : M B :=
  match m with
  | (Return a, l) => let '(r, l') := k a in (r, l ++ l')
  | (Raise e, l) => (Raise e, l)
  end.

Definition lift {A} (r : result A) : M A := (r, []).

Declare Scope py_scope.
Delimit Scope py_scope with py.
Notation "x <- m ;; k" := (bind m (fun x => k))
  (at level 100, m at next level, right associativity) : py_scope.
Notation "m ;;; k" := (bind m (fun _ => k))
  (at level 100, right associativity) : py_scope.
#[local] Open Scope py_scope.

(** A list comprehension whose body may raise: elements are evaluated left
    to right and the first exception ends the comprehension. *)
Fixpoint comprehension {A B} (f : A -> M B) (l : list A) : M (list B) :=
  match l with
  | [] => ret []
  | a :: l' => b <- f a ;; bs <- comprehension f l' ;; ret (b :: bs)
  end.

(** ** Strings *)

Module str.

(** [needle in hay]. *)
Fixpoint contains (needle hay : string) : bool :=
  String.prefix needle hay
  || match hay with
     | EmptyString => false
     | String _ hay' => contains needle hay'
     end.

Fixpoint drop (n : nat) (s : string) : string :=
  match n, s with
  | S n', String _ s' => drop n' s'
  | _, _ => s
  end.

(** The text before and after the first occurrence of [sep]. *)
Fixpoint split_first (sep s : string) : option (string * string) :=
  if String.prefix sep s then Some (EmptyString, drop (String.length sep) s)
  else match s with
       | EmptyString => None
       | String c s' =>
           match split_first sep s' with
           | Some (before, after) => Some (String c before, after)
           | None => None
           end
       end.

(** [s.partition(sep)] for a non-empty [sep]. *)
Definition partition (sep s : string) : string * string * string :=
  match split_first sep s with
  | Some (before, after) => (before, sep, after)
  | None => (s, EmptyString, EmptyString)
  end.

Definition code (c : ascii) : Z := Z.of_nat (nat_of_ascii c).

(** [c.isspace()] on the Latin-1 range. *)
Definition isspace (c : ascii) : bool :=
  let n := code c in
  ((9 <=? n) && (n <=? 13)) || ((28 <=? n) && (n <=? 32))
  || (n =? 133) || (n =? 160).

Fixpoint lstrip_by (p : ascii -> bool) (s : string) : string :=
  match s with
  | EmptyString => EmptyString
  | String c s' => if p c then lstrip_by p s' else s
  end.

Fixpoint rstrip_by (p : ascii -> bool) (s : string) : string :=
  match s with
  | EmptyString => EmptyString
  | String c s' =>
      match rstrip_by p s' with
      | EmptyString => if p c then EmptyString else String c EmptyString
      | r => String c r
      end
  end.

(** [s.strip()]. *)
Definition strip (s : string) : string :=
  rstrip_by isspace (lstrip_by isspace s).

Fixpoint mem (c : ascii) (chars : string) : bool :=
  match chars with
  | EmptyString => false
  | String c' chars' => Ascii.eqb c c' || mem c chars'
  end.

(** [s.rstrip(chars)]. *)
Definition rstrip (chars s : string) : string :=
  rstrip_by (fun c => mem c chars) s.

(** [sep.join(l)]. *)
Fixpoint join (sep : string) (l : list string) : string :=
  match l with
  | [] => EmptyString
  | [s] => s
  | s :: l' => s +:+ sep +:+ join sep l'
  end.

(** The one-character strings iterating over [s] yields. *)
Fixpoint chars (s : string) : list string :=
  match s with
  | EmptyString => []
  | String c s' => String c EmptyString :: chars s'
  end.

End str.

(** [v[key]] for a [str] key. *)
Fixpoint assoc {V} (key : string) (items : list (string * V)) : option V :=
  match items with
  | [] => None
  | (k, v) :: items' => if String.eqb k key then Some v else assoc key items'
  end.

Definition getitem (v : PyVal) (key : string) : result PyVal :=
  match v with
  | PDict items =>
      match assoc key items with
      | Some x => Return x
      | None => Raise (KeyError key)
      end
  | _ => Raise TypeError
  end.

(** [iter(v)], run to its end: what a [for] over [v] visits. *)
Definition iterate (v : PyVal) : result (list PyVal) :=
  match v with
  | PList l => Return l
  | PStr s => Return (map PStr (str.chars s))
  | PDict items => Return (map (fun kv => PStr (fst kv)) items)
  | PNone | PBool _ | PInt _ | PFloat _ => Raise TypeError
  end.

(** ** Calendar dates and [strptime] *)

Module datetime.

Record date : Type := mkdate { year : Z; month : Z; day : Z }.

Definition is_leap (y : Z) : bool :=
  (y mod 4 =? 0) && (negb (y mod 100 =? 0) || (y mod 400 =? 0)).

Definition days_in_month (y m : Z) : Z :=
  if m =? 2 then (if is_leap y then 29 else 28)
  else if (m =? 4) || (m =? 6) || (m =? 9) || (m =? 11) then 30
  else 31.

(** [datetime.date(y, m, d)]. *)
Definition new (y m d : Z) : result date :=
  if negb ((1 <=? y) && (y <=? 9999)) then
    Raise (ValueError "year is out of range")
  else if negb ((1 <=? m) && (m <=? 12)) then
    Raise (ValueError "month must be in 1..12")
  else if negb ((1 <=? d) && (d <=? days_in_month y m)) then
    Raise (ValueError "day is out of range for month")
  else Return (mkdate y m d).

End datetime.

(** The regular expressions [_strptime] compiles a format into use only
    character classes, sequence, alternation and named groups. *)
Module re.

Inductive regex : Type :=
| Chr (p : ascii -> bool)
| Seq (r1 r2 : regex)
| Alt (r1 r2 : regex)
| Group (name : string) (r : regex).

(** Backtracking match of [r] at the head of [s]; [k] is the rest of the
    pattern, given the text [r] matched, the groups so far and the text
    left.  An alternation commits to its first branch only if the rest
    of the pattern then matches. *)
Fixpoint run {A} (r : regex) (s : string) (groups : list (string * string))
    (k : string -> list (string * string) -> string -> option A) : option A :=
  match r with
  | Chr p =>
      match s with
      | String c s' => if p c then k (String c EmptyString) groups s' else None
      | EmptyString => None
      end
  | Seq r1 r2 =>
      run r1 s groups (fun m1 g1 s1 =>
        run r2 s1 g1 (fun m2 g2 s2 => k (m1 +:+ m2) g2 s2))
  | Alt r1 r2 =>
      match run r1 s groups k with
      | Some a => Some a
      | None => run r2 s groups k
      end
  | Group name r1 =>
      run r1 s groups (fun m g s' => k m ((name, m) :: g) s')
  end.

(** [r.match(s)]: the groups of the match and the text after its end. *)
Definition match_ (r : regex) (s : string)
  : option (list (string * string) * string) :=
  run r s [] (fun _ g rest => Some (g, rest)).

Definition lit (c : ascii) : regex := Chr (Ascii.eqb c).

Definition range (lo hi : ascii) : regex :=
  Chr (fun c => (str.code lo <=? str.code c) && (str.code c <=? str.code hi)).

(** [\d]; on the Latin-1 range the decimal digits are 0 to 9. *)
Definition digit : regex := range "0" "9".

End re.

Module _strptime.

Import re.

(** [(?P<Y>\d\d\d\d)] *)
Definition directive_Y : regex :=
  Group "Y" (Seq digit (Seq digit (Seq digit digit))).

(** [(?P<m>1[0-2]|0[1-9]|[1-9])] *)
Definition directive_m : regex :=
  Group "m" (Alt (Seq (lit "1") (range "0" "2"))
            (Alt (Seq (lit "0") (range "1" "9"))
                 (range "1" "9"))).

(** [(?P<d>3[0-1]|[1-2]\d|0[1-9]|[1-9]| [1-9])] *)
Definition directive_d : regex :=
  Group "d" (Alt (Seq (lit "3") (range "0" "1"))
            (Alt (Seq (range "1" "2") digit)
            (Alt (Seq (lit "0") (range "1" "9"))
            (Alt (range "1" "9")
                 (Seq (lit " ") (range "1" "9")))))).

(** The pattern compiled from ['%Y-%m-%d']. *)
Definition format_regex : regex :=
  Seq directive_Y (Seq (lit "-") (Seq directive_m (Seq (lit "-") directive_d))).

Definition digit_value (c : ascii) : Z := str.code c - 48.

Fixpoint int_acc (acc : Z) (s : string) : Z :=
  match s with
  | EmptyString => acc
  | String c s' => int_acc (10 * acc + digit_value c) s'
  end.

(** [int(s)] on the text of a group: decimal digits, with the blank a
    day may start with ignored. *)
Definition int (s : string) : Z := int_acc 0 (str.strip s).

Definition group (name : string) (default : Z) (found : list (string * string)) : Z :=
  match assoc name found with
  | Some s => int s
  | None => default
  end.

(** What [_strptime] does with the outcome of the match. *)
Definition to_date (found : option (list (string * string) * string))
  : result datetime.date :=
  match found with
  | None => Raise (ValueError "time data does not match format")
  | Some (found, rest) =>
      if negb (String.eqb rest EmptyString) then
        Raise (ValueError "unconverted data remains")
      else
        datetime.new (group "Y" 1900 found) (group "m" 1 found) (group "d" 1 found)
  end.

(** [datetime.datetime.strptime(s, '%Y-%m-%d').date()] for a [str]. *)
Definition strptime_date (s : string) : result datetime.date :=
  to_date (match_ format_regex s).

End _strptime.

(** [datetime.datetime.strptime(d, '%Y-%m-%d').date()] for any value. *)
Definition strptime_Ymd (d : PyVal) : result datetime.date :=
  match d with
  | PStr s => _strptime.strptime_date s
  | _ => Raise TypeError
  end.

(** The text [date.isoformat()] writes: four digits, two, two. *)
Definition digit_char (n : Z) : ascii := ascii_of_nat (Z.to_nat (48 + n)).

Definition isoformat (d : datetime.date) : string :=
  let y := datetime.year d in
  let m := datetime.month d in
  let dd := datetime.day d in
  String (digit_char (y / 1000)) (String (digit_char (y / 100 mod 10))
    (String (digit_char (y / 10 mod 10)) (String (digit_char (y mod 10))
    (String "-" (String (digit_char (m / 10)) (String (digit_char (m mod 10))
    (String "-" (String (digit_char (dd / 10)) (String (digit_char (dd mod 10))
    EmptyString))))))))).

(** A date of the proleptic Gregorian calendar between years 1 and 9999. *)
Definition valid_date (d : datetime.date) : Prop :=
  1 <= datetime.year d <= 9999 /\ 1 <= datetime.month d <= 12 /\
  1 <= datetime.day d <= datetime.days_in_month (datetime.year d) (datetime.month d).

(** ** The parsed page: bs4's tree *)

Module bs4.

(** The classes of string a tree holds; [get_text] keeps only [Text] and
    [CData]. *)
Inductive StringKind : Type :=
| Text | CData | Comment | Declaration | Doctype | ProcessingInstruction
| Script | Stylesheet | TemplateString.

(** An attribute's value is a [str], or a list of [str] for the
    attributes html.parser's builder splits on blanks ([class] and a few
    others). *)
Inductive AttrValue : Type :=
| AStr (s : string)
| AList (l : list string).

Inductive PageElement : Type :=
| NavigableString (kind : StringKind) (s : string)
| Tag (name : string) (attrs : gmap string AttrValue) (contents : list PageElement).

(** [tag.descendants]: the elements below [tag] in document order. *)
Fixpoint descendants (e : PageElement) : list PageElement :=
  match e with
  | NavigableString _ _ => []
  | Tag _ _ contents => flat_map (fun c => c :: descendants c) contents
  end.

Definition is_tag (e : PageElement) : bool :=
  match e with
  | Tag _ _ _ => true
  | NavigableString _ _ => false
  end.

Definition attrs_of (e : PageElement) : gmap string AttrValue :=
  match e with
  | Tag _ a _ => a
  | NavigableString _ _ => ∅
  end.

Definition named (n : string) (e : PageElement) : bool :=
  match e with
  | Tag n' _ _ => String.eqb n' n
  | NavigableString _ _ => false
  end.

(** [key in tag.attrs]. *)
Definition has_attr (key : string) (e : PageElement) : bool :=
  match attrs_of e !! key with
  | Some _ => true
  | None => false
  end.

(** [SoupStrainer._matches] of an attribute's value, as [attrs.get]
    returns it, against a [str]. *)
Definition _matches (markup : option AttrValue) (match_against : string) : bool :=
  match markup with
  | Some (AList items) =>
      existsb (fun item => String.eqb item match_against) items
      || String.eqb (str.join " " items) match_against
  | Some (AStr s) => String.eqb s match_against
  | None => String.eqb match_against EmptyString
  end.

(** [tag.find_all(...)]: the tags below [tag] that the filter accepts. *)
Definition find_all (accept : PageElement -> bool) (e : PageElement)
  : list PageElement :=
  List.filter (fun x => is_tag x && accept x) (descendants e).

(** [tag.find(...)]: the first of them, or [None]. *)
Definition find (accept : PageElement -> bool) (e : PageElement)
  : option PageElement :=
  head (find_all accept e).

(** The filter of [find(n, attr=value)]. *)
Definition by_name_attr (n attr value : string) (e : PageElement) : bool :=
  named n e && _matches (attrs_of e !! attr) value.

(** [tag.attrs[key]]. *)
Definition attrs_getitem (e : PageElement) (key : string) : result AttrValue :=
  match attrs_of e !! key with
  | Some v => Return v
  | None => Raise (KeyError key)
  end.

Definition own_text (e : PageElement) : string :=
  match e with
  | NavigableString Text s | NavigableString CData s => s
  | _ => EmptyString
  end.

(** [tag.text]. *)
Definition text (e : PageElement) : string :=
  String.concat EmptyString (map own_text (descendants e)).

(** [tag.string]: the single string below a chain of only children. *)
Fixpoint string_ (e : PageElement) : option string :=
  match e with
  | NavigableString _ s => Some s
  | Tag _ _ [c] => string_ c
  | Tag _ _ _ => None
  end.

End bs4.

(** ** HTTP responses *)

Module requests.

(** What the plugin reads of a response: the status, the decoded body
    [text], and the outcome of the [json()] method on that body. *)
Record Response : Type := mkResponse {
  status_code : Z;
  text : string;
  json : result PyVal
}.

Definition raise_for_status (r : Response) : result unit :=
  if (400 <=? status_code r) && (status_code r <? 600) then Raise HTTPError
  else Return tt.

End requests.

(** ** The bot's plugin interface *)

Module api.

(** Modelled from the spec: [impfbot.api] is not among the sources.  The
    enumeration has at least the three members the plugin names; a
    member's [name] is its identifier. *)
Inductive VaccineType : Type :=
| AstraZeneca
| JohnsonAndJohnson
| Biontech.

Definition name (v : VaccineType) : string :=
  match v with
  | AstraZeneca => "AstraZeneca"
  | JohnsonAndJohnson => "JohnsonAndJohnson"
  | Biontech => "Biontech"
  end.

(** Modelled from the spec: a vaccine type with an optional dose
    number. *)
Definition VaccineRound : Type := VaccineType * option Z.

(** Modelled from the spec: the dates of one availability check and the
    optional "not available until" date. *)
Record AvailabilityInfo : Type := mkAvailabilityInfo {
  dates : list datetime.date;
  not_available_until : option datetime.date
}.

End api.

(** ** The environment *)

(** The libraries whose code is not the plugin's, and the world they read:
    the network behind [requests], the two parsers, and the file system and
    YAML reader behind the configuration loader. *)
Class Env : Type := {
  (** [requests.Session().get(url)] *)
  session_get : string -> result requests.Response;
  (** [requests.post(url, data=...)] *)
  requests_post : PyVal -> list (string * PyVal) -> result requests.Response;
  (** [json.loads(s)] for a [str] *)
  json_loads : string -> result PyVal;
  (** [bs4.BeautifulSoup(markup, features='html.parser')] *)
  BeautifulSoup : PyVal -> result bs4.PageElement;
  (** [str(l)] for a list of [str] *)
  str_of_list : list string -> string;
  (** [open(filename)], read to the end *)
  open_ : string -> result string;
  (** the YAML reader on a document *)
  yaml_load : string -> result PyVal
}.

(** ** impfbot/contrib/de/bavaria/dachau.py *)

Module dachau.
Section Plugin.

Context {E : Env}.

(** The module's [__name__] when the bot imports the plugin. *)
Definition __name__ : string := "impfbot.contrib.de.bavaria.dachau".

Definition ASTRA_2_URL : string := "https://termin.dachau-med.de/impfungen01/".
Definition JNJ_URL : string := "https://termin.dachau-med.de/impfungen02/".
Definition BIONTECH_1_URL : string := "https://termin.dachau-med.de/impfungen03/".
Definition BIONTECH_2_URL : string := "https://termin.dachau-med.de/impfung/".

Definition _parse_html (html : string) : result bs4.PageElement :=
  BeautifulSoup (PStr html).

(** The dataclass.  Its fields are annotated [str], but the constructor
    does not check: [salon_id] holds the option's [value] attribute as
    the tree has it, [ajax_url] and [ajax_none] what the page's JSON
    holds under the two keys. *)
Record DachauMedVaccinationCenter : Type := mkCenter {
  vaccine_type : api.VaccineType;
  round_num : option Z;
  name : string;
  salon_id : bs4.AttrValue;
  url : string;
  ajax_url : PyVal;
  ajax_none : PyVal
}.

Definition py_of_attr (v : bs4.AttrValue) : PyVal :=
  match v with
  | bs4.AStr s => PStr s
  | bs4.AList l => PList (map PStr l)
  end.

(** [str(v)], as an f-string formats a field. *)
Definition format_attr (v : bs4.AttrValue) : string :=
  match v with
  | bs4.AStr s => s
  | bs4.AList l => str_of_list l
  end.

(** One entry of [shops]: the dict with keys ['id'] and ['name']. *)
Definition shop_of (opt : bs4.PageElement) : M (bs4.AttrValue * string) :=
  value <- lift (bs4.attrs_getitem opt "value") ;;
  ret (value, str.strip (bs4.text opt)).

Definition _get_vaccination_centers_for
    (url : string) (vaccine_type : api.VaccineType) (round_num : option Z)
  : M (list DachauMedVaccinationCenter) :=
  response <- lift (session_get url) ;;
  lift (requests.raise_for_status response) ;;;
  soup <- lift (_parse_html (requests.text response)) ;;
  match bs4.find (bs4.by_name_attr "form" "id" "salon-step-attendant") soup with
  | None => raise (ValueError "form#salon-step-attendant not found")
  | Some form =>
  match bs4.find (bs4.by_name_attr "div" "class" "sln-shop-list") soup with
  | None => raise (ValueError "div.sln-shop-list not found")
  | Some shop_list =>
  shops <- comprehension shop_of (bs4.find_all (bs4.named "option") shop_list) ;;
  match bs4.find (bs4.by_name_attr "script" "id" "salon-js-extra") soup with
  | None => raise (ValueError "script#salon-js-extra not found")
  | Some salon_extra =>
  match bs4.string_ salon_extra with
  | None => raise AttributeError
  | Some script =>
  let extra_data_json_payload :=
    str.rstrip ";" (str.strip (snd (str.partition "=" script))) in
  extra_data <- lift (json_loads extra_data_json_payload) ;;
  comprehension (fun shop : bs4.AttrValue * string =>
      endpoint <- lift (getitem extra_data "ajax_url") ;;
      nonce <- lift (getitem extra_data "ajax_nonce") ;;
      ret (mkCenter vaccine_type round_num (snd shop) (fst shop) url endpoint nonce))
    shops
  end end end end.

(** [DachauMedPlugin.get_vaccination_centers]. *)
Definition get_vaccination_centers : M (list DachauMedVaccinationCenter) :=
  jnj <- _get_vaccination_centers_for JNJ_URL api.JohnsonAndJohnson None ;;
  astra <- _get_vaccination_centers_for ASTRA_2_URL api.AstraZeneca (Some 2) ;;
  biontech_1 <- _get_vaccination_centers_for BIONTECH_1_URL api.Biontech (Some 1) ;;
  biontech_2 <- _get_vaccination_centers_for BIONTECH_2_URL api.Biontech (Some 2) ;;
  ret (((jnj ++ astra) ++ biontech_1) ++ biontech_2).

Definition uid (self : DachauMedVaccinationCenter) : string :=
  __name__ +:+ ":" +:+ api.name (vaccine_type self) +:+ ":"
    +:+ format_attr (salon_id self).

Definition location (self : DachauMedVaccinationCenter) : string :=
  "Germany, Bavaria, Landkreis Dachau".

(** [logger.error(msg, *args)] on the module's logger. *)
Definition logger_error (msg : string) (args : list PyVal) : M unit :=
  (Return tt, [logging.mkLogRecord __name__ "ERROR" msg args]).

Definition nl : string := String "010"%char EmptyString.

Definition not_found_msg : string :=
  "Unable to find node with data-intervals attribute in page." +:+ nl +:+ nl
    +:+ "%s" +:+ nl.

(** [json.loads] of an attribute's value. *)
Definition json_loads_attr (v : bs4.AttrValue) : result PyVal :=
  match v with
  | bs4.AStr s => json_loads s
  | bs4.AList _ => Raise TypeError
  end.

(** The form fields of the POST. *)
Definition form_data (self : DachauMedVaccinationCenter) : list (string * PyVal) :=
  [ ("sln[shop]", py_of_attr (salon_id self));
    ("sln_step_page", PStr "shop");
    ("submit_shop", PStr "next");
    ("action", PStr "salon");
    ("method", PStr "salonStep");
    ("security", ajax_none self) ].

(** The returned dict, as the list of its items. *)
Definition check_availability (self : DachauMedVaccinationCenter)
  : M (list (api.VaccineRound * api.AvailabilityInfo)) :=
  response <- lift (requests_post (ajax_url self) (form_data self)) ;;
  if str.contains "Keine freien Termine" (requests.text response) then ret []
  else
    body <- lift (requests.json response) ;;
    content <- lift (getitem body "content") ;;
    soup <- lift (BeautifulSoup content) ;;
    match bs4.find (bs4.has_attr "data-intervals") soup with
    | None =>
        logger_error not_found_msg [content] ;;;
        ret []
    | Some data_node =>
        value <- lift (bs4.attrs_getitem data_node "data-intervals") ;;
        intervals <- lift (json_loads_attr value) ;;
        entries <- lift (getitem intervals "dates") ;;
        entries <- lift (iterate entries) ;;
        dates <- comprehension (fun d => lift (strptime_Ymd d)) entries ;;
        ret [ ((vaccine_type self, round_num self),
               api.mkAvailabilityInfo dates None) ]
    end.

End Plugin.
End dachau.

(** ** impfbot/main/config.py *)

Module config.
Section Loader.

Context {E : Env}.

Record Config : Type := mkConfig {
  token : string;
  admin_chat_id : Z;
  database_spec : string;
  check_period : Z;
  log_format : string
}.

(** The defaults of the dataclass fields. *)
Definition default_admin_chat_id : Z := 56970700.
Definition default_database_spec : string := "sqlite+pysqlite:///data/impfbot.db".
Definition default_check_period : Z := 20 * 60.
Definition default_log_format : string :=
  "[%(asctime)s - %(levelname)s - %(name)s]: %(message)s".

Definition field_str (items : list (string * PyVal)) (key : string)
    (default : option string) : result string :=
  match assoc key items, default with
  | Some (PStr s), _ => Return s
  | Some _, _ => Raise ConfigError
  | None, Some d => Return d
  | None, None => Raise ConfigError
  end.

Definition field_int (items : list (string * PyVal)) (key : string)
    (default : option Z) : result Z :=
  match assoc key items, default with
  | Some (PInt z), _ => Return z
  | Some _, _ => Raise ConfigError
  | None, Some d => Return d
  | None, None => Raise ConfigError
  end.

(** Modelled from the spec: [databind.yaml.from_stream(Config, fp)], a
    third-party deserialiser that is not among the sources.  The
    document must be a mapping; a field is read from its key, a field
    that is absent takes the dataclass default, and an absent field
    without a default, or a value of another type than the field's, is a
    [ConfigError]. *)
Definition from_stream (fp : string) : M Config :=
  document <- lift (yaml_load fp) ;;
  match document with
  | PDict items =>
      token <- lift (field_str items "token" None) ;;
      admin_chat_id <- lift (field_int items "admin_chat_id" (Some default_admin_chat_id)) ;;
      database_spec <- lift (field_str items "database_spec" (Some default_database_spec)) ;;
      check_period <- lift (field_int items "check_period" (Some default_check_period)) ;;
      log_format <- lift (field_str items "log_format" (Some default_log_format)) ;;
      ret (mkConfig token admin_chat_id database_spec check_period log_format)
  | _ => raise ConfigError
  end.

(** [Config.load]. *)
Definition load (filename : string) : M Config :=
  fp <- lift (open_ filename) ;;
  from_stream fp.

End Loader.
End config.

(** ** A recorded session *)

(** One booking page and a handful of AJAX answers with what the parsers
    make of them, to run the plugin on. *)
Module fixture.

Import bs4.

Definition dq : string := String "034"%char EmptyString.

Definition document (contents : list PageElement) : PageElement :=
  Tag "[document]" ∅ contents.

(** *** The booking page *)

Definition extra_payload : string :=
  "{" +:+ dq +:+ "ajax_url" +:+ dq +:+ ":" +:+ dq
    +:+ "https://termin.dachau-med.de/wp-admin/admin-ajax.php" +:+ dq +:+ ","
    +:+ dq +:+ "ajax_nonce" +:+ dq +:+ ":" +:+ dq +:+ "5f0c1d2e3a" +:+ dq +:+ "}".

Definition extra_script : string :=
  "var salon = " +:+ extra_payload +:+ ";".

Definition page_html : string :=
  "<form id='salon-step-attendant'><div class='sln-shop-list'><select>"
    +:+ "<option value='12'> Impfzentrum Dachau </option>"
    +:+ "<option value='13'>Impfzentrum Karlsfeld</option>"
    +:+ "</select></div></form><script id='salon-js-extra'>"
    +:+ extra_script +:+ "</script>".

Definition page_soup : PageElement :=
  document
    [ Tag "form" {[ "id" := AStr "salon-step-attendant" ]}
        [ Tag "div" {[ "class" := AList ["sln-shop-list"] ]}
            [ Tag "select" ∅
                [ Tag "option" {[ "value" := AStr "12" ]}
                    [ NavigableString Text " Impfzentrum Dachau " ];
                  Tag "option" {[ "value" := AStr "13" ]}
                    [ NavigableString Text "Impfzentrum Karlsfeld" ] ] ] ];
      Tag "script" {[ "id" := AStr "salon-js-extra" ]}
        [ NavigableString Script extra_script ] ].

Definition extra_data : PyVal :=
  PDict [ ("ajax_url", PStr "https://termin.dachau-med.de/wp-admin/admin-ajax.php");
          ("ajax_nonce", PStr "5f0c1d2e3a") ].

(** A page of another shape: the form is there, the shop list is not. *)
Definition bare_html : string :=
  "<form id='salon-step-attendant'></form>".

Definition bare_soup : PageElement :=
  document [ Tag "form" {[ "id" := AStr "salon-step-attendant" ]} [] ].

(** *** AJAX answers *)

Definition dates_ok : list string := ["2021-06-01"; "2021-06-03"].
Definition dates_bad : list string := ["2021-06-01"; "03.06.2021"].

(** The value of a [data-intervals] attribute listing [dates]. *)
Definition intervals_text (dates : list string) : string :=
  "{" +:+ dq +:+ "dates" +:+ dq +:+ ":["
    +:+ str.join "," (map (fun d => dq +:+ d +:+ dq) dates) +:+ "]}".

Definition intervals_value (dates : list string) : PyVal :=
  PDict [ ("dates", PList (map PStr dates)) ].

(** The HTML fragment of an answer: an optional notice, then a calendar
    node with the given [data-intervals] value. *)
Definition calendar_html (notice intervals : string) : string :=
  "<p>" +:+ notice +:+ "</p><div class='sln-calendar' data-intervals='"
    +:+ intervals +:+ "'></div>".

Definition calendar_node (intervals : string) : PageElement :=
  Tag "div" {[ "class" := AList ["sln-calendar"];
               "data-intervals" := AStr intervals ]} [].

Definition calendar_soup (notice intervals : string) : PageElement :=
  document
    [ Tag "p" ∅ [ NavigableString Text notice ];
      calendar_node intervals ].

(** A fragment with two calendar nodes: the first holds an object
    without dates, the second well-formed dates. *)
Definition two_calendars_html : string :=
  "<div data-intervals='{}'></div>" +:+ calendar_html "Termine" (intervals_text dates_ok).

Definition two_calendars_soup : PageElement :=
  document
    [ Tag "div" {[ "data-intervals" := AStr "{}" ]} [];
      Tag "p" ∅ [ NavigableString Text "Termine" ];
      calendar_node (intervals_text dates_ok) ].

Definition plain_html : string := "<p>Bitte warten</p>".

Definition plain_soup : PageElement :=
  document [ Tag "p" ∅ [ NavigableString Text "Bitte warten" ] ].

(** A JSON string literal: quotes and backslashes escaped. *)
Fixpoint json_escape (s : string) : string :=
  match s with
  | EmptyString => EmptyString
  | String c s' =>
      if Ascii.eqb c "034" || Ascii.eqb c "092"
      then String "092" (String c (json_escape s'))
      else String c (json_escape s')
  end.

(** The JSON body that carries [content], and what [json()] makes of
    it. *)
Definition answer (content : string) : requests.Response :=
  requests.mkResponse 200
    ("{" +:+ dq +:+ "content" +:+ dq +:+ ":" +:+ dq +:+ json_escape content
       +:+ dq +:+ "}")
    (Return (PDict [ ("content", PStr content) ])).

Definition answer_dates : requests.Response :=
  answer (calendar_html "Termine" (intervals_text dates_ok)).
Definition answer_bad_date : requests.Response :=
  answer (calendar_html "Termine" (intervals_text dates_bad)).
Definition answer_no_dates_key : requests.Response :=
  answer (calendar_html "Termine" "{}").
Definition answer_plain : requests.Response :=
  answer plain_html.
Definition answer_two_calendars : requests.Response :=
  answer two_calendars_html.

(** The site's plain-text answer when nothing is free. *)
Definition answer_none_free : requests.Response :=
  requests.mkResponse 200 "Keine freien Termine" (Raise JSONDecodeError).

(** Answers that carry the marker and a calendar node at once. *)
Definition answer_marker_dates : requests.Response :=
  answer (calendar_html "Keine freien Termine" (intervals_text dates_ok)).
Definition answer_marker_bad_date : requests.Response :=
  answer (calendar_html "Keine freien Termine" (intervals_text dates_bad)).
Definition answer_marker_no_dates_key : requests.Response :=
  answer (calendar_html "Keine freien Termine" "{}").

(** *** The libraries on the recorded texts *)

Definition soups : list (string * PageElement) :=
  [ (page_html, page_soup);
    (bare_html, bare_soup);
    (plain_html, plain_soup);
    (two_calendars_html, two_calendars_soup) ]
  ++ flat_map (fun notice =>
       map (fun intervals =>
              (calendar_html notice intervals, calendar_soup notice intervals))
           [intervals_text dates_ok; intervals_text dates_bad; "{}"])
     ["Termine"; "Keine freien Termine"].

Definition parse_html (markup : PyVal) : result PageElement :=
  match markup with
  | PStr html =>
      match assoc html soups with
      | Some soup => Return soup
      | None => Raise (OtherError "not recorded")
      end
  | _ => Raise TypeError
  end.

Definition documents : list (string * PyVal) :=
  [ (extra_payload, extra_data);
    (intervals_text dates_ok, intervals_value dates_ok);
    (intervals_text dates_bad, intervals_value dates_bad);
    ("{}", PDict []) ].

Definition loads (s : string) : result PyVal :=
  match assoc s documents with
  | Some v => Return v
  | None => Raise JSONDecodeError
  end.

(** The four booking pages answer alike, except that the page at
    [missing] has lost its shop list. *)
Definition get (missing : option string) (url : string) : result requests.Response :=
  if bool_decide (missing = Some url) then
    Return (requests.mkResponse 200 bare_html (Raise JSONDecodeError))
  else
    Return (requests.mkResponse 200 page_html (Raise JSONDecodeError)).

Definition settings_only_token : string := "token: 123456:ABC-DEF".
Definition settings_no_token : string := "check_period: 60".

Definition files : list (string * string) :=
  [ ("config.yml", settings_only_token); ("broken.yml", settings_no_token) ].

Definition read (filename : string) : result string :=
  match assoc filename files with
  | Some s => Return s
  | None => Raise OSError
  end.

Definition yaml_documents : list (string * PyVal) :=
  [ (settings_only_token, PDict [ ("token", PStr "123456:ABC-DEF") ]);
    (settings_no_token, PDict [ ("check_period", PInt 60) ]) ].

Definition yaml (s : string) : result PyVal :=
  match assoc s yaml_documents with
  | Some v => Return v
  | None => Raise (OtherError "YAMLError")
  end.

(** The environment in which the AJAX endpoint answers [posted] and the
    booking page at [missing] has no shop list. *)
Definition env (posted : requests.Response) (missing : option string) : Env :=
  {| session_get := get missing;
     requests_post := fun _ _ => Return posted;
     json_loads := loads;
     BeautifulSoup := parse_html;
     str_of_list := fun l =>
       "[" +:+ str.join ", " (map (fun s => "'" +:+ s +:+ "'") l) +:+ "]";
     open_ := read;
     yaml_load := yaml |}.

(** The centers of the booking page. *)
Definition centers_of (url : string) (vt : api.VaccineType) (rn : option Z)
  : list dachau.DachauMedVaccinationCenter :=
  [ dachau.mkCenter vt rn "Impfzentrum Dachau" (AStr "12") url
      (PStr "https://termin.dachau-med.de/wp-admin/admin-ajax.php")
      (PStr "5f0c1d2e3a");
    dachau.mkCenter vt rn "Impfzentrum Karlsfeld" (AStr "13") url
      (PStr "https://termin.dachau-med.de/wp-admin/admin-ajax.php")
      (PStr "5f0c1d2e3a") ].

(** The same shop and vaccine as [center], found on another day: the
    dose, the name on the page, the endpoint and the token differ. *)
Definition center_later : dachau.DachauMedVaccinationCenter :=
  dachau.mkCenter api.Biontech (Some 2) "Dachau (Impfzentrum)" (AStr "12")
    dachau.BIONTECH_2_URL
    (PStr "https://termin.dachau-med.de/wp-admin/ajax.php")
    (PStr "77aa01bc9d").

Definition june_1 : datetime.date := datetime.mkdate 2021 6 1.
Definition june_3 : datetime.date := datetime.mkdate 2021 6 3.

Definition center : dachau.DachauMedVaccinationCenter :=
  dachau.mkCenter api.Biontech (Some 1) "Impfzentrum Dachau" (AStr "12")
    dachau.BIONTECH_1_URL
    (PStr "https://termin.dachau-med.de/wp-admin/admin-ajax.php")
    (PStr "5f0c1d2e3a").

End fixture.

(** ** The vocabulary of the properties *)

Import dachau.

Definition marker : string := "Keine freien Termine".

(** The POST of the availability check went through and brought
    [response]. *)
Definition answered {E : Env} (self : DachauMedVaccinationCenter)
    (response : requests.Response) : Prop :=
  requests_post (ajax_url self) (form_data self) = Return response.

(** [node] is the first element below [soup], in document order, that
    carries the attribute [key]. *)
Definition first_with_attr (key : string) (soup node : bs4.PageElement) : Prop :=
  exists before after,
    bs4.descendants soup = before ++ node :: after /\
    bs4.has_attr key node = true /\
    (forall e, In e before -> bs4.has_attr key e = false).

(** A [dates] array of well-formed YYYY-MM-DD strings: the ISO texts of
    calendar dates. *)
Definition iso_entries (ds : list datetime.date) : PyVal :=
  PList (map (fun d => PStr (isoformat d)) ds).

(** A well-formed YYYY-MM-DD string. *)
Definition well_formed (s : string) : Prop :=
  exists d, valid_date d /\ s = isoformat d.

(** The item of the mapping a successful check returns. *)
Definition the_entry (self : DachauMedVaccinationCenter) (ds : list datetime.date)
  : api.VaccineRound * api.AvailabilityInfo :=
  ((vaccine_type self, round_num self), api.mkAvailabilityInfo ds None).

Definition is_str (v : PyVal) : Prop :=
  exists s, v = PStr s.

(** A value [strptime] does not turn into a date. *)
Definition rejected (v : PyVal) : Prop :=
  forall d, strptime_Ymd v <> Return d.

Definition isdigit (c : ascii) : bool :=
  (str.code "0" <=? str.code c) && (str.code c <=? str.code "9").

Definition text4 (c1 c2 c3 c4 : ascii) : string :=
  String c1 (String c2 (String c3 (String c4 EmptyString))).

Definition digit_text (n : Z) : string := String (digit_char n) EmptyString.

Definition pad2 (n : Z) : string :=
  String (digit_char (n / 10)) (String (digit_char (n mod 10)) EmptyString).

Definition pad4 (n : Z) : string :=
  text4 (digit_char (n / 1000)) (digit_char (n / 100 mod 10))
        (digit_char (n / 10 mod 10)) (digit_char (n mod 10)).

(** The ways the pattern lets a month and a day be written: two digits,
    or one digit below ten, which for a day may follow a blank. *)
Definition month_texts (m : Z) : list string :=
  if m <? 10 then [pad2 m; digit_text m] else [pad2 m].

Definition day_texts (dd : Z) : list string :=
  if dd <? 10 then [pad2 dd; digit_text dd; " " +:+ digit_text dd] else [pad2 dd].

(** [s] writes the calendar date [d] as year-month-day: the year in four
    digits, then month and day in one of their ways. *)
Definition reads_as (s : string) (d : datetime.date) : Prop :=
  valid_date d /\
  exists mt dt,
    In mt (month_texts (datetime.month d)) /\
    In dt (day_texts (datetime.day d)) /\
    s = pad4 (datetime.year d) +:+ "-" +:+ mt +:+ "-" +:+ dt.

(** [s] writes no calendar date. *)
Definition unreadable (s : string) : Prop :=
  forall d, ~ reads_as s d.

Definition months : list Z := map Z.of_nat (seq 1 12).
Definition days : list Z := map Z.of_nat (seq 1 31).

(** The part of the pattern after the year. *)
Definition tail_regex : re.regex :=
  re.Seq (re.lit "-") (re.Seq _strptime.directive_m
    (re.Seq (re.lit "-") _strptime.directive_d)).

(** The texts a pattern matches, with the groups they fill, the latest
    first. *)
Inductive matches : re.regex -> string -> list (string * string) -> Prop :=
| matches_chr (p : ascii -> bool) (c : ascii) :
    p c = true -> matches (re.Chr p) (String c EmptyString) []
| matches_seq (r1 r2 : re.regex) (m1 m2 : string) (g1 g2 : list (string * string)) :
    matches r1 m1 g1 -> matches r2 m2 g2 ->
    matches (re.Seq r1 r2) (m1 +:+ m2) (g2 ++ g1)
| matches_alt_l (r1 r2 : re.regex) (m : string) (g : list (string * string)) :
    matches r1 m g -> matches (re.Alt r1 r2) m g
| matches_alt_r (r1 r2 : re.regex) (m : string) (g : list (string * string)) :
    matches r2 m g -> matches (re.Alt r1 r2) m g
| matches_group (name : string) (r : re.regex) (m : string) (g : list (string * string)) :
    matches r m g -> matches (re.Group name r) m ((name, m) :: g).

Ltac invert_matches :=
  repeat match goal with
         | H : matches (re.Seq _ _) _ _ |- _ => inversion H; subst; clear H
         | H : matches (re.Alt _ _) _ _ |- _ => inversion H; subst; clear H
         | H : matches (re.Group _ _) _ _ |- _ => inversion H; subst; clear H
         | H : matches (re.Chr _) _ _ |- _ => inversion H; subst; clear H
         end.

(** *** Three sentences about the check, read to the letter

    Each speaks of every answer whose content holds a calendar node of
    some kind, and leaves open whether the body also holds the marker. *)

(** An answer whose content has an element with a [data-intervals]
    attribute holding a [dates] array of well-formed strings gives the
    single-entry mapping. *)
Definition dates_without_proviso : Prop :=
  forall (E : Env) (self : DachauMedVaccinationCenter)
    (response : requests.Response) (body content : PyVal)
    (soup node : bs4.PageElement) (value : string) (intervals : PyVal)
    (ds : list datetime.date),
    answered self response ->
    requests.json response = Return body ->
    getitem body "content" = Return content ->
    BeautifulSoup content = Return soup ->
    In node (bs4.descendants soup) ->
    bs4.attrs_getitem node "data-intervals" = Return (bs4.AStr value) ->
    json_loads value = Return intervals ->
    getitem intervals "dates" = Return (iso_entries ds) ->
    Forall valid_date ds ->
    fst (check_availability self) = Return [the_entry self ds].

(** An answer whose [dates] array has a string that is not a well-formed
    YYYY-MM-DD text makes the check raise a [ValueError]. *)
Definition malformed_without_proviso : Prop :=
  forall (E : Env) (self : DachauMedVaccinationCenter)
    (response : requests.Response) (body content : PyVal)
    (soup node : bs4.PageElement) (value : string) (intervals : PyVal)
    (entries : list PyVal),
    answered self response ->
    requests.json response = Return body ->
    getitem body "content" = Return content ->
    BeautifulSoup content = Return soup ->
    In node (bs4.descendants soup) ->
    bs4.attrs_getitem node "data-intervals" = Return (bs4.AStr value) ->
    json_loads value = Return intervals ->
    getitem intervals "dates" = Return (PList entries) ->
    Exists (fun v => exists s, v = PStr s /\ ~ well_formed s) entries ->
    exists e, fst (check_availability self) = Raise e /\ is_ValueError e = true.

(** An answer whose [data-intervals] attribute is a JSON object without a
    [dates] key makes the check raise a [KeyError]. *)
Definition no_dates_key_without_proviso : Prop :=
  forall (E : Env) (self : DachauMedVaccinationCenter)
    (response : requests.Response) (body content : PyVal)
    (soup node : bs4.PageElement) (value : string)
    (items : list (string * PyVal)),
    answered self response ->
    requests.json response = Return body ->
    getitem body "content" = Return content ->
    BeautifulSoup content = Return soup ->
    In node (bs4.descendants soup) ->
    bs4.attrs_getitem node "data-intervals" = Return (bs4.AStr value) ->
    json_loads value = Return (PDict items) ->
    assoc "dates" items = None ->
    exists key, fst (check_availability self) = Raise (KeyError key).

(** ** More vocabulary: discovery and the shapes of an answer *)

(** The text handed to [json.loads]: what follows the first [=] of the
    script, trimmed, without the semicolons at its end. *)
Definition payload_of (script : string) : string :=
  str.rstrip ";" (str.strip (snd (str.partition "=" script))).

Definition is_form : bs4.PageElement -> bool :=
  bs4.by_name_attr "form" "id" "salon-step-attendant".

Definition is_shop_list : bs4.PageElement -> bool :=
  bs4.by_name_attr "div" "class" "sln-shop-list".

Definition is_extra_script : bs4.PageElement -> bool :=
  bs4.by_name_attr "script" "id" "salon-js-extra".

(** The options below the shop list, in document order. *)
Definition options_of (shop_list : bs4.PageElement) : list bs4.PageElement :=
  bs4.find_all (bs4.named "option") shop_list.

(** The [value] attribute of an option that has one. *)
Definition option_value (opt : bs4.PageElement) : bs4.AttrValue :=
  match bs4.attrs_of opt !! "value" with
  | Some v => v
  | None => bs4.AStr EmptyString
  end.

(** The center discovery makes of an option. *)
Definition center_of (vt : api.VaccineType) (rn : option Z) (url : string)
    (endpoint nonce : PyVal) (opt : bs4.PageElement)
  : DachauMedVaccinationCenter :=
  mkCenter vt rn (str.strip (bs4.text opt)) (option_value opt) url endpoint nonce.

(** The page at [url] was fetched with a good status and parsed. *)
Definition fetched {E : Env} (url : string) (response : requests.Response)
    (soup : bs4.PageElement) : Prop :=
  session_get url = Return response /\
  requests.raise_for_status response = Return tt /\
  _parse_html (requests.text response) = Return soup.

(** Every character of [s] passes [p]. *)
Fixpoint all_chars (p : ascii -> bool) (s : string) : bool :=
  match s with
  | EmptyString => true
  | String c s' => p c && all_chars p s'
  end.

Definition is_semicolon (c : ascii) : bool := str.mem c ";".

Definition is_blank_or_semicolon (c : ascii) : bool :=
  str.isspace c || is_semicolon c.

Definition not_equals_sign (c : ascii) : bool := negb (Ascii.eqb c "=").

(** [s] has a last character, and it does not pass [p]. *)
Fixpoint ends_clear (p : ascii -> bool) (s : string) : bool :=
  match s with
  | EmptyString => false
  | String c EmptyString => negb (p c)
  | String _ s' => ends_clear p s'
  end.

(** The endpoint and the token the centers of one discovery share. *)
Definition value_or_none (r : result PyVal) : PyVal :=
  match r with
  | Return v => v
  | Raise _ => PNone
  end.

(** Two lists in a row, or the first failure. *)
Definition joined {A} (r1 r2 : result (list A)) : result (list A) :=
  match r1, r2 with
  | Return a, Return b => Return (a ++ b)
  | Return _, Raise e => Raise e
  | Raise e, _ => Raise e
  end.


(** The answer passed the marker test and its body is JSON with a
    [content] that parses into [soup]. *)
Definition content_parsed {E : Env} (self : DachauMedVaccinationCenter)
    (response : requests.Response) (content : PyVal)
    (soup : bs4.PageElement) : Prop :=
  answered self response /\
  str.contains marker (requests.text response) = false /\
  (exists body, requests.json response = Return body /\
                getitem body "content" = Return content) /\
  BeautifulSoup content = Return soup.

(** ** More recorded pages and answers *)

Module cases.

Import bs4.

Definition shop_list_with (options : list PageElement) : PageElement :=
  Tag "div" {[ "class" := AList ["sln-shop-list"] ]} [ Tag "select" ∅ options ].

Definition form_with (contents : list PageElement) : PageElement :=
  Tag "form" {[ "id" := AStr "salon-step-attendant" ]} contents.

Definition script_with (text : string) : PageElement :=
  Tag "script" {[ "id" := AStr "salon-js-extra" ]} [ NavigableString Script text ].

Definition option_dachau : PageElement :=
  Tag "option" {[ "value" := AStr "12" ]} [ NavigableString Text " Impfzentrum Dachau " ].

Definition option_prompt : PageElement :=
  Tag "option" ∅ [ NavigableString Text "Bitte waehlen" ].

(** The shop list and the script outside any form. *)
Definition no_form_html : string :=
  "<div class='sln-shop-list'><select><option value='12'> Impfzentrum Dachau "
    +:+ "</option></select></div><script id='salon-js-extra'>"
    +:+ fixture.extra_script +:+ "</script>".

Definition no_form_soup : PageElement :=
  fixture.document
    [ shop_list_with [option_dachau]; script_with fixture.extra_script ].

(** Form and shop list, no script. *)
Definition no_script_html : string :=
  "<form id='salon-step-attendant'><div class='sln-shop-list'><select>"
    +:+ "<option value='12'> Impfzentrum Dachau </option>"
    +:+ "</select></div></form>".

Definition no_script_soup : PageElement :=
  fixture.document [ form_with [ shop_list_with [option_dachau] ] ].

(** A prompt without a value among the options, and no script. *)
Definition prompt_html : string :=
  "<form id='salon-step-attendant'><div class='sln-shop-list'><select>"
    +:+ "<option value='12'> Impfzentrum Dachau </option>"
    +:+ "<option>Bitte waehlen</option>"
    +:+ "</select></div></form>".

Definition prompt_soup : PageElement :=
  fixture.document [ form_with [ shop_list_with [option_dachau; option_prompt] ] ].

(** A shop list without options; the script's object is empty. *)
Definition empty_list_html : string :=
  "<form id='salon-step-attendant'><div class='sln-shop-list'><select>"
    +:+ "</select></div></form><script id='salon-js-extra'>var salon = {};"
    +:+ "</script>".

Definition empty_list_soup : PageElement :=
  fixture.document
    [ form_with [ shop_list_with [] ]; script_with "var salon = {};" ].

(** One option; the script tag is empty. *)
Definition empty_script_html : string :=
  "<form id='salon-step-attendant'><div class='sln-shop-list'><select>"
    +:+ "<option value='12'> Impfzentrum Dachau </option>"
    +:+ "</select></div></form><script id='salon-js-extra'></script>".

Definition empty_script_soup : PageElement :=
  fixture.document
    [ form_with [ shop_list_with [option_dachau] ];
      Tag "script" {[ "id" := AStr "salon-js-extra" ]} [] ].

(** One option; the script's object is empty. *)
Definition no_keys_html : string :=
  "<form id='salon-step-attendant'><div class='sln-shop-list'><select>"
    +:+ "<option value='12'> Impfzentrum Dachau </option>"
    +:+ "</select></div></form><script id='salon-js-extra'>var salon = {};"
    +:+ "</script>".

Definition no_keys_soup : PageElement :=
  fixture.document
    [ form_with [ shop_list_with [option_dachau] ]; script_with "var salon = {};" ].

(** Dates written the short way, and a number among the dates. *)
Definition dates_short : list string := ["2021-6-1"; "2021-06- 3"].

Definition intervals_number_text : string :=
  "{" +:+ fixture.dq +:+ "dates" +:+ fixture.dq +:+ ":[" +:+ fixture.dq
    +:+ "2021-06-01" +:+ fixture.dq +:+ ",20210603," +:+ fixture.dq
    +:+ "03.06.2021" +:+ fixture.dq +:+ "]}".

Definition intervals_number_value : PyVal :=
  PDict [ ("dates", PList [PStr "2021-06-01"; PInt 20210603; PStr "03.06.2021"]) ].

Definition answer_short : requests.Response :=
  fixture.answer (fixture.calendar_html "Termine" (fixture.intervals_text dates_short)).

Definition answer_number : requests.Response :=
  fixture.answer (fixture.calendar_html "Termine" intervals_number_text).

(** The calendar node's attribute is no JSON. *)
Definition answer_not_json_attr : requests.Response :=
  fixture.answer (fixture.calendar_html "Termine" "heute").

(** An answer that is no JSON, and a JSON answer without [content]. *)
Definition answer_gateway : requests.Response :=
  requests.mkResponse 200 "<html><body>Bad Gateway</body></html>"
    (Raise JSONDecodeError).

Definition answer_refused : requests.Response :=
  requests.mkResponse 200
    ("{" +:+ fixture.dq +:+ "success" +:+ fixture.dq +:+ ":false}")
    (Return (PDict [ ("success", PBool false) ])).

Definition not_found : requests.Response :=
  requests.mkResponse 404 "<html><body>Not Found</body></html>"
    (Raise JSONDecodeError).

Definition soups : list (string * PageElement) :=
  [ (no_form_html, no_form_soup);
    (no_script_html, no_script_soup);
    (prompt_html, prompt_soup);
    (empty_list_html, empty_list_soup);
    (no_keys_html, no_keys_soup);
    (empty_script_html, empty_script_soup);
    (fixture.calendar_html "Termine" (fixture.intervals_text dates_short),
     fixture.calendar_soup "Termine" (fixture.intervals_text dates_short));
    (fixture.calendar_html "Termine" intervals_number_text,
     fixture.calendar_soup "Termine" intervals_number_text);
    (fixture.calendar_html "Termine" "heute",
     fixture.calendar_soup "Termine" "heute") ].

Definition parse_html (markup : PyVal) : result PageElement :=
  match markup with
  | PStr html =>
      match assoc html soups with
      | Some soup => Return soup
      | None => fixture.parse_html markup
      end
  | _ => Raise TypeError
  end.

Definition documents : list (string * PyVal) :=
  [ (fixture.intervals_text dates_short, fixture.intervals_value dates_short);
    (intervals_number_text, intervals_number_value) ].

Definition loads (s : string) : result PyVal :=
  match assoc s documents with
  | Some v => Return v
  | None => fixture.loads s
  end.

(** The environment in which every booking page is [page] and the AJAX
    endpoint answers [posted]. *)
Definition env (page posted : requests.Response) : Env :=
  {| session_get := fun _ => Return page;
     requests_post := fun _ _ => Return posted;
     json_loads := loads;
     BeautifulSoup := parse_html;
     str_of_list := fun l =>
       "[" +:+ str.join ", " (map (fun s => "'" +:+ s +:+ "'") l) +:+ "]";
     open_ := fixture.read;
     yaml_load := fixture.yaml |}.

Definition page_of (html : string) : requests.Response :=
  requests.mkResponse 200 html (Raise JSONDecodeError).

End cases.

(** ** Answers and files for the amended properties *)

Module edge.

Import bs4.

(** A malformed date between a good one and a number. *)
Definition intervals_mixed_text : string :=
  "{" +:+ fixture.dq +:+ "dates" +:+ fixture.dq +:+ ":[" +:+ fixture.dq
    +:+ "2021-06-01" +:+ fixture.dq +:+ "," +:+ fixture.dq +:+ "03.06.2021"
    +:+ fixture.dq +:+ ",7]}".

Definition intervals_mixed_value : PyVal :=
  PDict [ ("dates", PList [PStr "2021-06-01"; PStr "03.06.2021"; PInt 7]) ].

Definition answer_mixed : requests.Response :=
  fixture.answer (fixture.calendar_html "Termine" intervals_mixed_text).

(** The page without the shop list, answered with a server error. *)
Definition server_error : requests.Response :=
  requests.mkResponse 500 fixture.bare_html (Raise JSONDecodeError).

Definition parse_html (markup : PyVal) : result PageElement :=
  match markup with
  | PStr html =>
      if String.eqb html (fixture.calendar_html "Termine" intervals_mixed_text)
      then Return (fixture.calendar_soup "Termine" intervals_mixed_text)
      else cases.parse_html markup
  | _ => Raise TypeError
  end.

Definition loads (s : string) : result PyVal :=
  if String.eqb s intervals_mixed_text then Return intervals_mixed_value
  else cases.loads s.

(** A settings file that sets every field, to values no check would
    pass. *)
Definition settings_full : string :=
  "token: x" +:+ dachau.nl +:+ "admin_chat_id: -1" +:+ dachau.nl
    +:+ "database_spec: nowhere" +:+ dachau.nl +:+ "check_period: -5"
    +:+ dachau.nl +:+ "log_format: plain".

Definition settings_full_items : list (string * PyVal) :=
  [ ("token", PStr "x"); ("admin_chat_id", PInt (-1));
    ("database_spec", PStr "nowhere"); ("check_period", PInt (-5));
    ("log_format", PStr "plain") ].

Definition read (filename : string) : result string :=
  if String.eqb filename "full.yml" then Return settings_full
  else fixture.read filename.

Definition yaml (s : string) : result PyVal :=
  if String.eqb s settings_full then Return (PDict settings_full_items)
  else fixture.yaml s.

(** The environment in which every booking page is [page] and the AJAX
    endpoint answers [posted]. *)
Definition env (page posted : requests.Response) : Env :=
  {| session_get := fun _ => Return page;
     requests_post := fun _ _ => Return posted;
     json_loads := loads;
     BeautifulSoup := parse_html;
     str_of_list := fun l =>
       "[" +:+ str.join ", " (map (fun s => "'" +:+ s +:+ "'") l) +:+ "]";
     open_ := read;
     yaml_load := yaml |}.

End edge.

(** A sentence about discovery, read to the letter: it speaks of every
    page without the shop list and leaves open with which status the
    page was answered. *)
Definition shop_list_without_proviso : Prop :=
  forall (E : Env) (url : string) (vt : api.VaccineType) (rn : option Z)
    (response : requests.Response) (soup : bs4.PageElement),
    session_get url = Return response ->
    _parse_html (requests.text response) = Return soup ->
    (forall e, In e (bs4.descendants soup) ->
               bs4.by_name_attr "div" "class" "sln-shop-list" e = false) ->
    exists e,
      fst (_get_vaccination_centers_for url vt rn) = Raise e /\
      is_ValueError e = true.

(** * Properties *)

(** ** The monad *)

Lemma bind_lift_Return {A B} (r : result A) (a : A) (k : A -> M B) :
  r = Return a -> bind (lift r) k = k a.
Proof.
  intros ->. unfold bind, lift. destruct (k a) as [r' l']. reflexivity.
Qed.

Lemma bind_lift_Raise {A B} (r : result A) (e : exn) (k : A -> M B) :
  r = Raise e -> bind (lift r) k = (Raise e, []).
Proof. intros ->. reflexivity. Qed.

Lemma bind_Return_nil {A B} (m : M A) (a : A) (k : A -> M B) :
  m = (Return a, []) -> bind m k = k a.
Proof.
  intros ->. unfold bind. destruct (k a) as [r' l']. reflexivity.
Qed.

Lemma bind_Raise {A B} (m : M A) (e : exn) (l : list logging.LogRecord) (k : A -> M B) :
  m = (Raise e, l) -> bind m k = (Raise e, l).
Proof. intros ->. reflexivity. Qed.

(** A comprehension over computations that do not log does not log. *)
Lemma comprehension_silent {A B} (f : A -> M B) (l : list A) :
  (forall a, snd (f a) = []) -> snd (comprehension f l) = [].
Proof.
  intros Hf. induction l as [|a l IH]; [reflexivity|].
  cbn [comprehension]. specialize (Hf a).
  destruct (f a) as [[b|e] lf]; cbn in Hf; subst lf; cbn [bind]; [|reflexivity].
  destruct (comprehension f l) as [[bs|e] lc]; cbn in IH; subst lc; reflexivity.
Qed.

Lemma comprehension_Return {A B} (f : A -> M B) (g : A -> B) (l : list A) :
  (forall a, In a l -> f a = (Return (g a), [])) ->
  comprehension f l = (Return (map g l), []).
Proof.
  induction l as [|a l IH]; intros Hf; [reflexivity|].
  cbn [comprehension map].
  rewrite (bind_Return_nil (f a) (g a)) by (apply Hf; left; reflexivity).
  rewrite (bind_Return_nil (comprehension f l) (map g l))
    by (apply IH; intros; apply Hf; right; assumption).
  reflexivity.
Qed.

(** ** Searching the tree *)

Lemma head_filter_None {A} (p : A -> bool) (l : list A) :
  head (List.filter p l) = None <-> (forall x, In x l -> p x = false).
Proof.
  induction l as [|a l IH]; cbn.
  - split; [intros _ x []|reflexivity].
  - destruct (p a) eqn:Ha; cbn.
    + split; [discriminate|]. intros H. specialize (H a (or_introl eq_refl)).
      congruence.
    + rewrite IH. split.
      * intros H x [<-|Hx]; [assumption|apply H, Hx].
      * intros H x Hx. apply H. right. assumption.
Qed.

Lemma head_filter_Some {A} (p : A -> bool) (l : list A) (x : A) :
  head (List.filter p l) = Some x <->
  exists before after,
    l = before ++ x :: after /\ p x = true /\
    (forall y, In y before -> p y = false).
Proof.
  induction l as [|a l IH]; cbn.
  - split; [discriminate|]. intros (before & after & H & _).
    destruct before; discriminate.
  - destruct (p a) eqn:Ha; cbn.
    + split.
      * intros [= <-]. exists [], l. repeat split; [assumption|intros y []].
      * intros (before & after & H & Hx & Hb).
        destruct before as [|b before]; cbn in H; injection H as <- H.
        -- reflexivity.
        -- specialize (Hb a (or_introl eq_refl)). congruence.
    + rewrite IH. split.
      * intros (before & after & -> & Hx & Hb).
        exists (a :: before), after. repeat split; [assumption|].
        intros y [<-|Hy]; [assumption|apply Hb, Hy].
      * intros (before & after & H & Hx & Hb).
        destruct before as [|b before]; cbn in H; injection H as <- H.
        -- congruence.
        -- exists before, after. repeat split; [assumption..|].
           intros y Hy. apply Hb. right. assumption.
Qed.

Lemma has_attr_is_tag (key : string) (e : bs4.PageElement) :
  bs4.has_attr key e = true -> bs4.is_tag e = true.
Proof. destruct e; [discriminate|reflexivity]. Qed.

Lemma is_tag_has_attr (key : string) (e : bs4.PageElement) :
  bs4.is_tag e && bs4.has_attr key e = bs4.has_attr key e.
Proof. destruct e; reflexivity. Qed.

Lemma find_first_with_attr (key : string) (soup node : bs4.PageElement) :
  first_with_attr key soup node ->
  bs4.find (bs4.has_attr key) soup = Some node.
Proof.
  intros (before & after & Hd & Hn & Hb).
  unfold bs4.find, bs4.find_all. apply head_filter_Some.
  exists before, after. repeat split; [assumption| |].
  - rewrite is_tag_has_attr. assumption.
  - intros y Hy. rewrite is_tag_has_attr. apply Hb, Hy.
Qed.

Lemma find_no_attr (key : string) (soup : bs4.PageElement) :
  (forall e, In e (bs4.descendants soup) -> bs4.has_attr key e = false) ->
  bs4.find (bs4.has_attr key) soup = None.
Proof.
  intros H. unfold bs4.find, bs4.find_all. apply head_filter_None.
  intros x Hx. rewrite is_tag_has_attr. apply H, Hx.
Qed.

(** ** The availability check *)

(** (C5) Whenever the body of the answer contains the text "Keine freien
    Termine", [check_availability] returns the empty mapping: nothing is
    raised, nothing is logged, and the outcome of parsing the body as JSON
    plays no part, whatever it would be. *)
Theorem check_availability_none_free {E : Env}
    (self : DachauMedVaccinationCenter) (response : requests.Response) :
  answered self response ->
  str.contains marker (requests.text response) = true ->
  check_availability self = (Return [], []).
Proof.
  intros Hpost Hmark. unfold check_availability.
  rewrite (bind_lift_Return _ response) by exact Hpost.
  fold marker. rewrite Hmark. reflexivity.
Qed.

Lemma check_availability_none_free_witness :
  let E := fixture.env fixture.answer_none_free None in
  requests.json fixture.answer_none_free = Raise JSONDecodeError /\
  check_availability fixture.center = (Return [], []).
Proof.
  split; [reflexivity|].
  apply (@check_availability_none_free
           (fixture.env fixture.answer_none_free None)
           fixture.center fixture.answer_none_free);
    reflexivity.
Defined.

(** (C4) When the body of the answer does not contain "Keine freien
    Termine", is JSON with a [content] field, and no element of the parsed
    content carries a [data-intervals] attribute, [check_availability]
    returns the empty mapping, raises nothing, and emits exactly one log
    record, of level ERROR, on the module's logger. *)
Theorem check_availability_no_data_node {E : Env}
    (self : DachauMedVaccinationCenter) (response : requests.Response)
    (body content : PyVal) (soup : bs4.PageElement) :
  answered self response ->
  str.contains marker (requests.text response) = false ->
  requests.json response = Return body ->
  getitem body "content" = Return content ->
  BeautifulSoup content = Return soup ->
  (forall e, In e (bs4.descendants soup) ->
             bs4.has_attr "data-intervals" e = false) ->
  check_availability self =
    (Return [], [logging.mkLogRecord __name__ "ERROR" not_found_msg [content]]).
Proof.
  intros Hpost Hmark Hjson Hcontent Hsoup Hnone. unfold check_availability.
  rewrite (bind_lift_Return _ response) by exact Hpost.
  fold marker. rewrite Hmark.
  rewrite (bind_lift_Return _ body) by exact Hjson.
  rewrite (bind_lift_Return _ content) by exact Hcontent.
  rewrite (bind_lift_Return _ soup) by exact Hsoup.
  rewrite (find_no_attr _ _ Hnone). reflexivity.
Qed.

Lemma check_availability_no_data_node_witness :
  let E := fixture.env fixture.answer_plain None in
  check_availability fixture.center =
    (Return [],
     [logging.mkLogRecord __name__ "ERROR" not_found_msg [PStr fixture.plain_html]]).
Proof.
  apply (@check_availability_no_data_node
           (fixture.env fixture.answer_plain None)
           fixture.center fixture.answer_plain
           (PDict [("content", PStr fixture.plain_html)])
           (PStr fixture.plain_html) fixture.plain_soup);
    try reflexivity.
  intros e He. cbn in He.
  repeat (destruct He as [<-|He]; [reflexivity|]). destruct He.
Defined.

(** ** Dates and the texts that write them *)

Lemma append_cons (x : ascii) (a b : string) :
  String x a +:+ b = String x (a +:+ b).
Proof. reflexivity. Qed.

Lemma append_assoc (a b c : string) : (a +:+ b) +:+ c = a +:+ (b +:+ c).
Proof.
  induction a as [|x a IH]; [reflexivity|].
  rewrite !append_cons, IH. reflexivity.
Qed.

Lemma append_nil_r (a : string) : a +:+ EmptyString = a.
Proof.
  induction a as [|x a IH]; [reflexivity|]. rewrite append_cons, IH. reflexivity.
Qed.

Lemma run_sound {A} (r : re.regex) :
  forall (s : string) (g : list (string * string))
         (k : string -> list (string * string) -> string -> option A) (a : A),
    re.run r s g k = Some a ->
    exists m rest g',
      s = m +:+ rest /\ matches r m g' /\ k m (g' ++ g) rest = Some a.
Proof.
  induction r as [p|r1 IH1 r2 IH2|r1 IH1 r2 IH2|name r IH]; intros s g k a H;
    cbn [re.run] in H.
  - destruct s as [|c s']; [discriminate|].
    destruct (p c) eqn:Hp; [|discriminate].
    exists (String c EmptyString), s', []. repeat split; [constructor|]; assumption.
  - apply IH1 in H as (m1 & rest1 & g1 & -> & Hm1 & H).
    apply IH2 in H as (m2 & rest & g2 & -> & Hm2 & H).
    exists (m1 +:+ m2), rest, (g2 ++ g1). repeat split.
    + symmetry. apply append_assoc.
    + constructor; assumption.
    + rewrite <- app_assoc. exact H.
  - destruct (re.run r1 s g k) as [a'|] eqn:H1.
    + injection H as ->. apply IH1 in H1 as (m & rest & g' & -> & Hm & H1).
      exists m, rest, g'. repeat split; [apply matches_alt_l|]; assumption.
    + apply IH2 in H as (m & rest & g' & -> & Hm & H).
      exists m, rest, g'. repeat split; [apply matches_alt_r|]; assumption.
  - apply IH in H as (m & rest & g' & -> & Hm & H).
    exists m, rest, ((name, m) :: g'). repeat split; [constructor|]; assumption.
Qed.

Lemma char_in_range (lo hi c : ascii) :
  (str.code lo <=? str.code c) && (str.code c <=? str.code hi) = true ->
  In c (map ascii_of_nat
          (seq (nat_of_ascii lo) (S (nat_of_ascii hi - nat_of_ascii lo)))).
Proof.
  unfold str.code. intros H. apply andb_prop in H as [H1 H2].
  apply Z.leb_le in H1, H2. apply in_map_iff. exists (nat_of_ascii c).
  split; [apply ascii_nat_embedding|]. apply in_seq. lia.
Qed.

Ltac enumerate_chars :=
  repeat match goal with
         | H : Ascii.eqb _ _ = true |- _ => apply Ascii.eqb_eq in H; subst
         | H : (_ <=? _) && (_ <=? _) = true |- _ =>
             apply char_in_range in H; cbn in H;
             repeat (destruct H as [<-|H]; [|]); [..|destruct H]
         end.

Lemma month_inv (mt : string) (g : list (string * string)) :
  matches _strptime.directive_m mt g ->
  exists m, 1 <= m <= 12 /\ g = [("m", mt)] /\ In mt (month_texts m) /\
            _strptime.int mt = m.
Proof.
  unfold _strptime.directive_m, re.lit, re.range. intros H.
  invert_matches; enumerate_chars;
    (eexists; split; [|split; [reflexivity|split; [|reflexivity]]]);
    vm_compute; first [tauto | split; discriminate].
Qed.

Lemma day_inv (dt : string) (g : list (string * string)) :
  matches _strptime.directive_d dt g ->
  exists dd, 1 <= dd <= 31 /\ g = [("d", dt)] /\ In dt (day_texts dd) /\
             _strptime.int dt = dd.
Proof.
  unfold _strptime.directive_d, re.digit, re.lit, re.range. intros H.
  invert_matches; enumerate_chars;
    (eexists; split; [|split; [reflexivity|split; [|reflexivity]]]);
    vm_compute; first [tauto | split; discriminate].
Qed.

Lemma digit_char_code (c : ascii) :
  isdigit c = true ->
  0 <= _strptime.digit_value c <= 9 /\
  c = digit_char (_strptime.digit_value c) /\ str.isspace c = false.
Proof.
  unfold isdigit. intros H. apply char_in_range in H. cbn in H.
  repeat (destruct H as [<-|H]; [vm_compute; repeat split; discriminate|]).
  destruct H.
Qed.

Lemma int_text4 (c1 c2 c3 c4 : ascii) :
  str.isspace c1 = false -> str.isspace c4 = false ->
  _strptime.int (text4 c1 c2 c3 c4) =
    1000 * _strptime.digit_value c1 + 100 * _strptime.digit_value c2
    + 10 * _strptime.digit_value c3 + _strptime.digit_value c4.
Proof.
  intros H1 H4. unfold _strptime.int, str.strip, text4.
  cbn [str.lstrip_by]. rewrite H1.
  cbn [str.rstrip_by]. rewrite H4.
  cbn [_strptime.int_acc]. lia.
Qed.

Lemma year_inv (yt : string) (g : list (string * string)) :
  matches _strptime.directive_Y yt g ->
  exists y, 0 <= y <= 9999 /\ g = [("Y", yt)] /\ yt = pad4 y /\
            _strptime.int yt = y.
Proof.
  unfold _strptime.directive_Y, re.digit, re.range. intros H. invert_matches.
  repeat match goal with
         | H : (_ <=? _) && (_ <=? _) = true |- _ =>
             apply digit_char_code in H; destruct H as (? & ? & ?)
         end.
  match goal with
  | |- context [(String ?c1 EmptyString +:+ String ?c2 EmptyString
                 +:+ String ?c3 EmptyString +:+ String ?c4 EmptyString)] =>
      change (String c1 EmptyString +:+ String c2 EmptyString
              +:+ String c3 EmptyString +:+ String c4 EmptyString)
        with (text4 c1 c2 c3 c4);
      exists (_strptime.int (text4 c1 c2 c3 c4));
      rewrite (int_text4 c1 c2 c3 c4) by assumption;
      set (v1 := _strptime.digit_value c1) in *;
      set (v2 := _strptime.digit_value c2) in *;
      set (v3 := _strptime.digit_value c3) in *;
      set (v4 := _strptime.digit_value c4) in *
  end.
  split; [lia|]. split; [reflexivity|]. split; [|reflexivity].
  unfold pad4.
  replace ((1000 * v1 + 100 * v2 + 10 * v3 + v4) / 1000) with v1
    by (Z.div_mod_to_equations; lia).
  replace ((1000 * v1 + 100 * v2 + 10 * v3 + v4) / 100 mod 10) with v2
    by (Z.div_mod_to_equations; lia).
  replace ((1000 * v1 + 100 * v2 + 10 * v3 + v4) / 10 mod 10) with v3
    by (Z.div_mod_to_equations; lia).
  replace ((1000 * v1 + 100 * v2 + 10 * v3 + v4) mod 10) with v4
    by (Z.div_mod_to_equations; lia).
  congruence.
Qed.

Lemma datetime_new_inv (y m dd : Z) (d : datetime.date) :
  datetime.new y m dd = Return d -> d = datetime.mkdate y m dd /\ valid_date d.
Proof.
  unfold datetime.new.
  destruct ((1 <=? y) && (y <=? 9999)) eqn:Hy; [|discriminate].
  destruct ((1 <=? m) && (m <=? 12)) eqn:Hm; [|discriminate].
  destruct ((1 <=? dd) && (dd <=? datetime.days_in_month y m)) eqn:Hd;
    [|discriminate].
  cbn. intros [= <-]. split; [reflexivity|].
  apply andb_prop in Hy as [Hy1 Hy2]. apply andb_prop in Hm as [Hm1 Hm2].
  apply andb_prop in Hd as [Hd1 Hd2].
  unfold valid_date. cbn. repeat split; apply Z.leb_le; assumption.
Qed.

(** What [strptime] turns into a date writes that date. *)
Lemma strptime_date_reads (s : string) (d : datetime.date) :
  _strptime.strptime_date s = Return d -> reads_as s d.
Proof.
  unfold _strptime.strptime_date, _strptime.to_date, re.match_.
  destruct (re.run _ s [] _) as [[found rest]|] eqn:Hrun; [|discriminate].
  apply run_sound in Hrun as (m & rest' & g & -> & Hm & Hk).
  injection Hk as <- <-.
  destruct (String.eqb rest' EmptyString) eqn:Hrest; [|discriminate].
  apply String.eqb_eq in Hrest as ->. cbn [negb].
  unfold _strptime.format_regex, re.lit in Hm.
  inversion Hm as [|? ? yt tl gy gtl Hy Htl| | |]; subst; clear Hm.
  inversion Htl as [|? ? dash1 tl1 gd1 gtl1 Hd1 Htl1| | |]; subst; clear Htl.
  inversion Htl1 as [|? ? mt tl2 gm gtl2 Hmt Htl2| | |]; subst; clear Htl1.
  inversion Htl2 as [|? ? dash2 dt gd2 gdt Hd2 Hdt| | |]; subst; clear Htl2.
  inversion Hd1 as [? c1 Hc1| | | |]; subst; clear Hd1.
  inversion Hd2 as [? c2 Hc2| | | |]; subst; clear Hd2.
  apply Ascii.eqb_eq in Hc1 as <-. apply Ascii.eqb_eq in Hc2 as <-.
  apply year_inv in Hy as (y & Hyr & -> & -> & Hyi).
  apply month_inv in Hmt as (mm & Hmr & -> & Hmin & Hmi).
  apply day_inv in Hdt as (dd & Hdr & -> & Hdin & Hdi).
  change (_strptime.group "Y" 1900 _) with (_strptime.int (pad4 y)).
  change (_strptime.group "m" 1 _) with (_strptime.int mt).
  change (_strptime.group "d" 1 _) with (_strptime.int dt).
  rewrite Hyi, Hmi, Hdi. intros H. apply datetime_new_inv in H as [-> Hv].
  split; [exact Hv|]. exists mt, dt. cbn [datetime.month datetime.day datetime.year].
  repeat split; [assumption..|]. rewrite append_nil_r. reflexivity.
Qed.

Lemma in_range (lo n : nat) (z : Z) :
  Z.of_nat lo <= z < Z.of_nat lo + Z.of_nat n ->
  In z (map Z.of_nat (seq lo n)).
Proof.
  intros H. apply in_map_iff. exists (Z.to_nat z). split; [lia|].
  apply in_seq. lia.
Qed.

Lemma run_directive_Y {A} (c1 c2 c3 c4 : ascii) (rest : string)
    (g : list (string * string))
    (k : string -> list (string * string) -> string -> option A) :
  isdigit c1 = true -> isdigit c2 = true -> isdigit c3 = true -> isdigit c4 = true ->
  re.run _strptime.directive_Y (String c1 (String c2 (String c3 (String c4 rest)))) g k
  = k (text4 c1 c2 c3 c4) (("Y", text4 c1 c2 c3 c4) :: g) rest.
Proof.
  unfold isdigit. intros H1 H2 H3 H4.
  cbn [re.run _strptime.directive_Y re.digit re.range].
  rewrite H1, H2, H3, H4. reflexivity.
Qed.

(** Every way of writing month and day after a year is read by the rest
    of the pattern. *)
Lemma tail_table :
  Forall (fun m => Forall (fun dd =>
    Forall (fun mt => Forall (fun dt =>
      forall ytxt : string,
        _strptime.to_date
          (re.run tail_regex (String "-" (mt +:+ String "-" dt)) [("Y", ytxt)]
             (fun _ g rest => Some (g, rest)))
        = datetime.new (_strptime.int ytxt) m dd)
      (day_texts dd)) (month_texts m)) days) months.
Proof.
  unfold months, days. cbn [map seq Z.of_nat].
  repeat match goal with
         | |- Forall _ (_ :: _) => constructor
         | |- Forall _ [] => constructor
         | |- Forall _ (month_texts ?m) =>
             let l := eval vm_compute in (month_texts m) in
             change (month_texts m) with l
         | |- Forall _ (day_texts ?dd) =>
             let l := eval vm_compute in (day_texts dd) in
             change (day_texts dd) with l
         end;
    intros ytxt; reflexivity.
Qed.

Lemma digit_char_table :
  Forall (fun n => isdigit (digit_char n) = true /\
                   str.isspace (digit_char n) = false /\
                   _strptime.digit_value (digit_char n) = n)
         (map Z.of_nat (seq 0 10)).
Proof.
  cbn [map seq Z.of_nat].
  repeat match goal with |- Forall _ _ => constructor end;
    repeat split; reflexivity.
Qed.

Lemma digit_char_facts (n : Z) :
  0 <= n <= 9 ->
  isdigit (digit_char n) = true /\ str.isspace (digit_char n) = false /\
  _strptime.digit_value (digit_char n) = n.
Proof.
  intros H. pose proof digit_char_table as T.
  rewrite List.Forall_forall in T. apply T, in_range. lia.
Qed.

Lemma days_in_month_le (y m : Z) : datetime.days_in_month y m <= 31.
Proof.
  unfold datetime.days_in_month.
  repeat match goal with |- context [if ?b then _ else _] => destruct b end; lia.
Qed.

Lemma datetime_new_valid (d : datetime.date) :
  valid_date d ->
  datetime.new (datetime.year d) (datetime.month d) (datetime.day d) = Return d.
Proof.
  destruct d as [y m dd]. unfold valid_date. cbn. intros (Hy & Hm & Hd).
  unfold datetime.new.
  replace ((1 <=? y) && (y <=? 9999)) with true
    by (symmetry; apply andb_true_intro; split; apply Z.leb_le; lia).
  replace ((1 <=? m) && (m <=? 12)) with true
    by (symmetry; apply andb_true_intro; split; apply Z.leb_le; lia).
  replace ((1 <=? dd) && (dd <=? datetime.days_in_month y m)) with true
    by (symmetry; apply andb_true_intro; split; apply Z.leb_le; lia).
  reflexivity.
Qed.

(** What writes a date is turned into it. *)
Lemma reads_strptime_date (s : string) (d : datetime.date) :
  reads_as s d -> _strptime.strptime_date s = Return d.
Proof.
  intros (Hv & mt & dt & Hmt & Hdt & ->). pose proof Hv as (Hy & Hm & Hd).
  pose proof (days_in_month_le (datetime.year d) (datetime.month d)) as Hle.
  rewrite <- (datetime_new_valid d Hv).
  destruct d as [y m dd]. cbn [datetime.year datetime.month datetime.day] in *.
  destruct (digit_char_facts (y / 1000)) as (D1 & S1 & V1);
    [Z.div_mod_to_equations; lia|].
  destruct (digit_char_facts (y / 100 mod 10)) as (D2 & S2 & V2);
    [Z.div_mod_to_equations; lia|].
  destruct (digit_char_facts (y / 10 mod 10)) as (D3 & S3 & V3);
    [Z.div_mod_to_equations; lia|].
  destruct (digit_char_facts (y mod 10)) as (D4 & S4 & V4);
    [Z.div_mod_to_equations; lia|].
  unfold _strptime.strptime_date, re.match_, pad4, text4.
  rewrite !append_cons. change (EmptyString +:+ ?x) with x.
  unfold _strptime.format_regex. cbn [re.run].
  rewrite run_directive_Y by assumption.
  pose proof tail_table as T.
  rewrite List.Forall_forall in T. specialize (T m (in_range 1 12 m ltac:(lia))).
  rewrite List.Forall_forall in T. specialize (T dd (in_range 1 31 dd ltac:(lia))).
  rewrite List.Forall_forall in T. specialize (T mt Hmt).
  rewrite List.Forall_forall in T. specialize (T dt Hdt).
  unfold tail_regex in T. cbn [re.run] in T.
  etransitivity; [apply T|].
  rewrite int_text4 by assumption. rewrite V1, V2, V3, V4.
  f_equal. Z.div_mod_to_equations. lia.
Qed.

(** [strptime] with ['%Y-%m-%d'] reads exactly the texts that write a
    calendar date. *)
Lemma strptime_date_iff (s : string) (d : datetime.date) :
  _strptime.strptime_date s = Return d <-> reads_as s d.
Proof. split; [apply strptime_date_reads|apply reads_strptime_date]. Qed.

Lemma isoformat_reads (d : datetime.date) :
  valid_date d -> reads_as (isoformat d) d.
Proof.
  intros Hv. split; [exact Hv|].
  exists (pad2 (datetime.month d)), (pad2 (datetime.day d)).
  split; [|split; [|reflexivity]].
  - unfold month_texts. destruct (datetime.month d <? 10); left; reflexivity.
  - unfold day_texts. destruct (datetime.day d <? 10); left; reflexivity.
Qed.

Lemma strptime_isoformat (d : datetime.date) :
  valid_date d -> strptime_Ymd (PStr (isoformat d)) = Return d.
Proof. intros Hv. apply reads_strptime_date, isoformat_reads, Hv. Qed.

Lemma strptime_valid (v : PyVal) (d : datetime.date) :
  strptime_Ymd v = Return d -> valid_date d.
Proof.
  destruct v; try discriminate. cbn [strptime_Ymd].
  intros H. apply strptime_date_reads in H as [H _]. exact H.
Qed.

Lemma unreadable_rejected (s : string) : unreadable s <-> rejected (PStr s).
Proof.
  unfold unreadable, rejected. cbn [strptime_Ymd].
  split; intros H d Hd; apply (H d); apply strptime_date_iff; exact Hd.
Qed.

(** ** What the check does with a calendar node *)

(** Up to the node: the answer came, carries no marker, is JSON with a
    [content] that parses, and [node] is the first element with a
    [data-intervals] attribute, whose value is JSON too. *)
Lemma check_availability_at_node {E : Env}
    (self : DachauMedVaccinationCenter) (response : requests.Response)
    (body content : PyVal) (soup node : bs4.PageElement) (value : string)
    (intervals : PyVal) :
  answered self response ->
  str.contains marker (requests.text response) = false ->
  requests.json response = Return body ->
  getitem body "content" = Return content ->
  BeautifulSoup content = Return soup ->
  first_with_attr "data-intervals" soup node ->
  bs4.attrs_getitem node "data-intervals" = Return (bs4.AStr value) ->
  json_loads value = Return intervals ->
  check_availability self =
    (entries <- lift (getitem intervals "dates") ;;
     entries <- lift (iterate entries) ;;
     dates <- comprehension (fun d => lift (strptime_Ymd d)) entries ;;
     ret [the_entry self dates]).
Proof.
  intros Hpost Hmark Hjson Hcontent Hsoup Hnode Hvalue Hloads.
  unfold check_availability.
  rewrite (bind_lift_Return _ response) by exact Hpost.
  fold marker. rewrite Hmark.
  rewrite (bind_lift_Return _ body) by exact Hjson.
  rewrite (bind_lift_Return _ content) by exact Hcontent.
  rewrite (bind_lift_Return _ soup) by exact Hsoup.
  rewrite (find_first_with_attr _ _ _ Hnode).
  rewrite (bind_lift_Return _ (bs4.AStr value)) by exact Hvalue.
  rewrite (bind_lift_Return _ intervals) by exact Hloads.
  reflexivity.
Qed.

Lemma comprehension_iso (ds : list datetime.date) :
  Forall valid_date ds ->
  comprehension (fun d => lift (strptime_Ymd d))
    (map (fun d => PStr (isoformat d)) ds) = (Return ds, []).
Proof.
  induction 1 as [|d ds Hd _ IH]; [reflexivity|].
  cbn [map comprehension].
  rewrite (bind_lift_Return _ d) by (apply strptime_isoformat, Hd).
  rewrite (bind_Return_nil _ ds) by exact IH.
  reflexivity.
Qed.

(** (C1, amended) When the body of the answer does not contain "Keine
    freien Termine" and the first element of its content that carries a
    [data-intervals] attribute holds a JSON object whose [dates] array
    lists well-formed YYYY-MM-DD strings, [check_availability] returns the
    mapping with the single key (vaccine type, round number) of the
    center, whose value holds exactly the dates the strings denote, in the
    array's order, and no "not available until" date. *)
Theorem check_availability_dates {E : Env}
    (self : DachauMedVaccinationCenter) (response : requests.Response)
    (body content : PyVal) (soup node : bs4.PageElement) (value : string)
    (intervals : PyVal) (ds : list datetime.date) :
  answered self response ->
  str.contains marker (requests.text response) = false ->
  requests.json response = Return body ->
  getitem body "content" = Return content ->
  BeautifulSoup content = Return soup ->
  first_with_attr "data-intervals" soup node ->
  bs4.attrs_getitem node "data-intervals" = Return (bs4.AStr value) ->
  json_loads value = Return intervals ->
  getitem intervals "dates" = Return (iso_entries ds) ->
  Forall valid_date ds ->
  check_availability self =
    ( Return [ ((vaccine_type self, round_num self),
                api.mkAvailabilityInfo ds None) ],
      [] ).
Proof.
  intros Hpost Hmark Hjson Hcontent Hsoup Hnode Hvalue Hloads Hdates Hvalid.
  rewrite (check_availability_at_node self response body content soup node
             value intervals) by assumption.
  rewrite (bind_lift_Return _ (iso_entries ds)) by exact Hdates.
  unfold iso_entries. cbn [iterate].
  rewrite (bind_lift_Return _ _ _ eq_refl).
  rewrite (bind_Return_nil _ ds) by (apply comprehension_iso, Hvalid).
  reflexivity.
Qed.

Lemma check_availability_dates_witness :
  let E := fixture.env fixture.answer_dates None in
  check_availability fixture.center =
    ( Return [ ((api.Biontech, Some 1),
                api.mkAvailabilityInfo [fixture.june_1; fixture.june_3] None) ],
      [] ).
Proof.
  apply (@check_availability_dates
           (fixture.env fixture.answer_dates None)
           fixture.center fixture.answer_dates
           (PDict [("content",
                    PStr (fixture.calendar_html "Termine"
                            (fixture.intervals_text fixture.dates_ok)))])
           (PStr (fixture.calendar_html "Termine"
                    (fixture.intervals_text fixture.dates_ok)))
           (fixture.calendar_soup "Termine" (fixture.intervals_text fixture.dates_ok))
           (fixture.calendar_node (fixture.intervals_text fixture.dates_ok))
           (fixture.intervals_text fixture.dates_ok)
           (fixture.intervals_value fixture.dates_ok)
           [fixture.june_1; fixture.june_3]);
    try reflexivity.
  - exists [bs4.Tag "p" ∅ [bs4.NavigableString bs4.Text "Termine"];
            bs4.NavigableString bs4.Text "Termine"], [].
    split; [reflexivity|]. split; [reflexivity|].
    intros e [<-|[<-|[]]]; reflexivity.
  - repeat constructor; vm_compute; discriminate.
Defined.

(** The proviso of C1 cannot be dropped: an answer may hold the marker
    and a calendar node with well-formed dates, and the check then
    returns the empty mapping. *)
Lemma dates_without_proviso_fails : ~ dates_without_proviso.
Proof.
  intros H.
  specialize (H (fixture.env fixture.answer_marker_dates None)
                fixture.center fixture.answer_marker_dates
                (PDict [("content",
                         PStr (fixture.calendar_html marker
                                 (fixture.intervals_text fixture.dates_ok)))])
                (PStr (fixture.calendar_html marker
                         (fixture.intervals_text fixture.dates_ok)))
                (fixture.calendar_soup marker (fixture.intervals_text fixture.dates_ok))
                (fixture.calendar_node (fixture.intervals_text fixture.dates_ok))
                (fixture.intervals_text fixture.dates_ok)
                (fixture.intervals_value fixture.dates_ok)
                [fixture.june_1; fixture.june_3]
                eq_refl eq_refl eq_refl eq_refl).
  assert (Hin : In (fixture.calendar_node (fixture.intervals_text fixture.dates_ok))
                   (bs4.descendants
                      (fixture.calendar_soup marker
                         (fixture.intervals_text fixture.dates_ok))))
    by (right; right; left; reflexivity).
  specialize (H Hin eq_refl eq_refl eq_refl).
  assert (Hv : Forall valid_date [fixture.june_1; fixture.june_3])
    by (repeat constructor; vm_compute; discriminate).
  specialize (H Hv). vm_compute in H. discriminate H.
Qed.

(** What the check returns on that answer. *)
Example check_availability_marker_and_dates :
  let E := fixture.env fixture.answer_marker_dates None in
  str.contains marker (requests.text fixture.answer_marker_dates) = true /\
  check_availability fixture.center = (Return [], []).
Proof. split; reflexivity. Qed.

(** Of several elements with the attribute the first in document order
    decides: dates in a later one are not read. *)
Lemma first_node_decides :
  let E := fixture.env fixture.answer_two_calendars None in
  In (fixture.calendar_node (fixture.intervals_text fixture.dates_ok))
     (bs4.descendants fixture.two_calendars_soup) /\
  check_availability fixture.center = (Raise (KeyError "dates"), []).
Proof.
  split; [|reflexivity]. right; right; right; left. reflexivity.
Qed.

(** ** Malformed dates *)

(** Texts that are no dates for [strptime]: other separators, another
    order, parts left out or added, blanks, days off the calendar. *)
Lemma rejected_texts :
  Forall rejected
    (map PStr [ ""; "2021-06"; "03.06.2021"; "2021/06/01"; "21-06-01";
                "2021-13-01"; "2021-00-10"; "2021-02-29"; "2021-04-31";
                "0000-01-01"; "2021-06-01T00:00:00"; " 2021-06-01";
                "2021-06-01 "; "2021-06-011"; "heute" ]).
Proof.
  cbn [map].
  repeat match goal with |- Forall _ _ => constructor end;
    intros d Hd; discriminate Hd.
Qed.

(** On a [str], [strptime] yields a date or a [ValueError], nothing
    else. *)
Lemma strptime_date_outcome (s : string) :
  (exists d, _strptime.strptime_date s = Return d) \/
  (exists msg, _strptime.strptime_date s = Raise (ValueError msg)).
Proof.
  unfold _strptime.strptime_date, _strptime.to_date.
  destruct (re.match_ _strptime.format_regex s) as [[found rest]|];
    [|right; eexists; reflexivity].
  destruct (negb (String.eqb rest EmptyString)); [right; eexists; reflexivity|].
  unfold datetime.new.
  repeat match goal with
         | |- context [if ?b then _ else _] => destruct b
         end;
    solve [left; eexists; reflexivity | right; eexists; reflexivity].
Qed.

Lemma comprehension_rejected (entries : list PyVal) :
  Forall is_str entries -> Exists rejected entries ->
  exists msg,
    comprehension (fun d => lift (strptime_Ymd d)) entries
    = (Raise (ValueError msg), []).
Proof.
  induction 1 as [|v entries [s ->] _ IH]; intros Hex.
  - inversion Hex.
  - cbn [comprehension strptime_Ymd].
    destruct (strptime_date_outcome s) as [[d Hd]|[msg Hmsg]].
    + rewrite (bind_lift_Return _ d) by exact Hd.
      destruct IH as [msg Hmsg].
      * inversion Hex as [? ? Hrej|]; [|assumption].
        exfalso. apply (Hrej d). exact Hd.
      * exists msg. rewrite (bind_Raise _ (ValueError msg) []) by exact Hmsg.
        reflexivity.
    + exists msg. rewrite (bind_lift_Raise _ (ValueError msg)) by exact Hmsg.
      reflexivity.
Qed.

Lemma comprehension_rejected_at (before after : list PyVal) (s : string) :
  Forall is_str before -> rejected (PStr s) ->
  exists msg,
    comprehension (fun d => lift (strptime_Ymd d)) (before ++ PStr s :: after)
    = (Raise (ValueError msg), []).
Proof.
  intros Hbefore Hs. induction Hbefore as [|v before [s0 ->] _ IH];
    cbn [app comprehension strptime_Ymd].
  - destruct (strptime_date_outcome s) as [[d Hd]|[msg Hmsg]].
    + exfalso. apply (Hs d). exact Hd.
    + exists msg. rewrite (bind_lift_Raise _ (ValueError msg)) by exact Hmsg.
      reflexivity.
  - destruct (strptime_date_outcome s0) as [[d Hd]|[msg Hmsg]].
    + rewrite (bind_lift_Return _ d) by exact Hd.
      destruct IH as [msg Hmsg]. exists msg.
      rewrite (bind_Raise _ (ValueError msg) []) by exact Hmsg. reflexivity.
    + exists msg. rewrite (bind_lift_Raise _ (ValueError msg)) by exact Hmsg.
      reflexivity.
Qed.

(** (C3, amended) When the body of the answer does not contain "Keine
    freien Termine" and the first element of its content that carries a
    [data-intervals] attribute holds a JSON object whose [dates] array
    has a string that [strptime(.., '%Y-%m-%d')] does not accept, all
    entries before it being strings, [check_availability] raises a
    [ValueError], the ParseError of the specification: the failure leaves
    the call, nothing is returned and nothing is logged, whatever
    follows the string in the array.  What [strptime] accepts is a year
    of four digits, a month of two digits or of one, and a day of two
    digits, of one, or of a blank and one, that name a calendar date
    ([strptime_date_iff], for texts of the Latin-1 range). *)
Theorem check_availability_malformed_date {E : Env}
    (self : DachauMedVaccinationCenter) (response : requests.Response)
    (body content : PyVal) (soup node : bs4.PageElement) (value : string)
    (intervals : PyVal) (before after : list PyVal) (s : string) :
  answered self response ->
  str.contains marker (requests.text response) = false ->
  requests.json response = Return body ->
  getitem body "content" = Return content ->
  BeautifulSoup content = Return soup ->
  first_with_attr "data-intervals" soup node ->
  bs4.attrs_getitem node "data-intervals" = Return (bs4.AStr value) ->
  json_loads value = Return intervals ->
  getitem intervals "dates" = Return (PList (before ++ PStr s :: after)) ->
  Forall is_str before ->
  rejected (PStr s) ->
  exists msg, check_availability self = (Raise (ValueError msg), []).
Proof.
  intros Hpost Hmark Hjson Hcontent Hsoup Hnode Hvalue Hloads Hdates Hstr Hbad.
  rewrite (check_availability_at_node self response body content soup node
             value intervals) by assumption.
  rewrite (bind_lift_Return _ _ _ Hdates).
  cbn [iterate]. rewrite (bind_lift_Return _ _ _ eq_refl).
  destruct (comprehension_rejected_at before after s Hstr Hbad) as [msg Hmsg].
  exists msg. rewrite (bind_Raise _ (ValueError msg) []) by exact Hmsg.
  reflexivity.
Qed.

Lemma check_availability_malformed_date_witness :
  let E := edge.env (cases.page_of fixture.page_html) edge.answer_mixed in
  exists msg, check_availability fixture.center = (Raise (ValueError msg), []).
Proof.
  apply (@check_availability_malformed_date
           (edge.env (cases.page_of fixture.page_html) edge.answer_mixed)
           fixture.center edge.answer_mixed
           (PDict [("content",
                    PStr (fixture.calendar_html "Termine" edge.intervals_mixed_text))])
           (PStr (fixture.calendar_html "Termine" edge.intervals_mixed_text))
           (fixture.calendar_soup "Termine" edge.intervals_mixed_text)
           (fixture.calendar_node edge.intervals_mixed_text)
           edge.intervals_mixed_text edge.intervals_mixed_value
           [PStr "2021-06-01"] [PInt 7] "03.06.2021");
    try reflexivity.
  - exists [bs4.Tag "p" ∅ [bs4.NavigableString bs4.Text "Termine"];
            bs4.NavigableString bs4.Text "Termine"], [].
    split; [reflexivity|]. split; [reflexivity|].
    intros e [<-|[<-|[]]]; reflexivity.
  - repeat constructor. eexists. reflexivity.
  - intros d Hd. discriminate Hd.
Defined.

(** An entry that is no string, before the malformed one, changes the
    exception: the check then raises a [TypeError]. *)
Lemma number_before_malformed_date :
  let E := cases.env (cases.page_of fixture.page_html) cases.answer_number in
  rejected (PStr "03.06.2021") /\
  cases.intervals_number_value
  = PDict [ ("dates", PList [PStr "2021-06-01"; PInt 20210603; PStr "03.06.2021"]) ] /\
  check_availability fixture.center = (Raise TypeError, []).
Proof.
  split; [intros d Hd; discriminate Hd|]. split; reflexivity.
Qed.

Lemma not_well_formed_dotted : ~ well_formed "03.06.2021".
Proof.
  intros (d & _ & H). unfold isoformat in H. discriminate H.
Qed.

(** The proviso of C3 cannot be dropped: an answer may hold the marker
    and a calendar node with a malformed date, and the check then returns
    the empty mapping instead of raising. *)
Lemma malformed_without_proviso_fails : ~ malformed_without_proviso.
Proof.
  intros H.
  specialize (H (fixture.env fixture.answer_marker_bad_date None)
                fixture.center fixture.answer_marker_bad_date
                (PDict [("content",
                         PStr (fixture.calendar_html marker
                                 (fixture.intervals_text fixture.dates_bad)))])
                (PStr (fixture.calendar_html marker
                         (fixture.intervals_text fixture.dates_bad)))
                (fixture.calendar_soup marker (fixture.intervals_text fixture.dates_bad))
                (fixture.calendar_node (fixture.intervals_text fixture.dates_bad))
                (fixture.intervals_text fixture.dates_bad)
                (fixture.intervals_value fixture.dates_bad)
                [PStr "2021-06-01"; PStr "03.06.2021"]
                eq_refl eq_refl eq_refl eq_refl).
  assert (Hin : In (fixture.calendar_node (fixture.intervals_text fixture.dates_bad))
                   (bs4.descendants
                      (fixture.calendar_soup marker
                         (fixture.intervals_text fixture.dates_bad))))
    by (right; right; left; reflexivity).
  specialize (H Hin eq_refl eq_refl eq_refl).
  destruct H as (e & He & _).
  - apply Exists_cons_tl, Exists_cons_hd. exists "03.06.2021".
    split; [reflexivity|exact not_well_formed_dotted].
  - vm_compute in He. discriminate He.
Qed.

(** What the check returns on that answer. *)
Example check_availability_marker_and_bad_date :
  let E := fixture.env fixture.answer_marker_bad_date None in
  check_availability fixture.center = (Return [], []).
Proof. reflexivity. Qed.

(** The pattern of [strptime] is laxer than YYYY-MM-DD: a month or a day
    of one digit is read as well. *)
Lemma strptime_one_digit :
  ~ well_formed "2021-6-1" /\
  strptime_Ymd (PStr "2021-6-1") = Return (datetime.mkdate 2021 6 1).
Proof.
  split; [|reflexivity].
  intros (d & _ & H). unfold isoformat in H. discriminate H.
Qed.

(** So a text that writes no date is not well-formed, but not the other
    way round. *)
Lemma unreadable_not_well_formed (s : string) :
  unreadable s -> ~ well_formed s.
Proof.
  intros Hs (d & Hv & ->). apply (Hs d), isoformat_reads, Hv.
Qed.

(** ** A calendar node of another shape *)

(** (C10, amended) When the body of the answer does not contain "Keine
    freien Termine" and the first element of its content that carries a
    [data-intervals] attribute holds a JSON object without a [dates] key,
    [check_availability] raises [KeyError('dates')]: the lookup error
    leaves the call, the empty mapping is not returned and no record is
    logged, unlike where no element carries the attribute. *)
Theorem check_availability_no_dates_key {E : Env}
    (self : DachauMedVaccinationCenter) (response : requests.Response)
    (body content : PyVal) (soup node : bs4.PageElement) (value : string)
    (items : list (string * PyVal)) :
  answered self response ->
  str.contains marker (requests.text response) = false ->
  requests.json response = Return body ->
  getitem body "content" = Return content ->
  BeautifulSoup content = Return soup ->
  first_with_attr "data-intervals" soup node ->
  bs4.attrs_getitem node "data-intervals" = Return (bs4.AStr value) ->
  json_loads value = Return (PDict items) ->
  assoc "dates" items = None ->
  check_availability self = (Raise (KeyError "dates"), []).
Proof.
  intros Hpost Hmark Hjson Hcontent Hsoup Hnode Hvalue Hloads Hkey.
  rewrite (check_availability_at_node self response body content soup node
             value (PDict items)) by assumption.
  cbn [getitem]. rewrite Hkey. reflexivity.
Qed.

Lemma check_availability_no_dates_key_witness :
  let E := fixture.env fixture.answer_no_dates_key None in
  check_availability fixture.center = (Raise (KeyError "dates"), []).
Proof.
  apply (@check_availability_no_dates_key
           (fixture.env fixture.answer_no_dates_key None)
           fixture.center fixture.answer_no_dates_key
           (PDict [("content", PStr (fixture.calendar_html "Termine" "{}"))])
           (PStr (fixture.calendar_html "Termine" "{}"))
           (fixture.calendar_soup "Termine" "{}")
           (fixture.calendar_node "{}") "{}" []);
    try reflexivity.
  exists [bs4.Tag "p" ∅ [bs4.NavigableString bs4.Text "Termine"];
          bs4.NavigableString bs4.Text "Termine"], [].
  split; [reflexivity|]. split; [reflexivity|].
  intros e [<-|[<-|[]]]; reflexivity.
Defined.

(** The proviso of C10 cannot be dropped: an answer may hold the marker
    and a calendar node without a [dates] key, and the check then returns
    the empty mapping instead of raising. *)
Lemma no_dates_key_without_proviso_fails : ~ no_dates_key_without_proviso.
Proof.
  intros H.
  specialize (H (fixture.env fixture.answer_marker_no_dates_key None)
                fixture.center fixture.answer_marker_no_dates_key
                (PDict [("content", PStr (fixture.calendar_html marker "{}"))])
                (PStr (fixture.calendar_html marker "{}"))
                (fixture.calendar_soup marker "{}")
                (fixture.calendar_node "{}") "{}" []
                eq_refl eq_refl eq_refl eq_refl).
  assert (Hin : In (fixture.calendar_node "{}")
                   (bs4.descendants (fixture.calendar_soup marker "{}")))
    by (right; right; left; reflexivity).
  specialize (H Hin eq_refl eq_refl eq_refl).
  destruct H as (key & Hkey). vm_compute in Hkey. discriminate Hkey.
Qed.

(** ** Discovery *)

Lemma snd_bind {A B} (m : M A) (k : A -> M B) :
  snd m = [] -> (forall a, snd (k a) = []) -> snd (bind m k) = [].
Proof.
  intros Hm Hk. destruct m as [[a|e] l]; cbn in Hm; subst l; cbn [bind].
  - specialize (Hk a). destruct (k a) as [r l']. cbn in Hk. subst l'. reflexivity.
  - reflexivity.
Qed.

Lemma shop_of_silent (opt : bs4.PageElement) : snd (shop_of opt) = [].
Proof. unfold shop_of. apply snd_bind; [reflexivity|]. intros a. reflexivity. Qed.

(** Discovery writes no log record. *)
Lemma discovery_silent {E : Env} (url : string) (vt : api.VaccineType)
    (rn : option Z) :
  snd (_get_vaccination_centers_for url vt rn) = [].
Proof.
  unfold _get_vaccination_centers_for.
  apply snd_bind; [reflexivity|]. intros response.
  apply snd_bind; [reflexivity|]. intros _.
  apply snd_bind; [reflexivity|]. intros soup.
  destruct (bs4.find _ soup) as [form|]; [|reflexivity].
  destruct (bs4.find _ soup) as [shop_list|]; [|reflexivity].
  apply snd_bind; [apply comprehension_silent, shop_of_silent|]. intros shops.
  destruct (bs4.find _ soup) as [salon_extra|]; [|reflexivity].
  destruct (bs4.string_ salon_extra) as [script|]; [|reflexivity].
  apply snd_bind; [reflexivity|]. intros extra_data.
  apply comprehension_silent. intros shop.
  apply snd_bind; [reflexivity|]. intros endpoint.
  apply snd_bind; [reflexivity|]. intros nonce. reflexivity.
Qed.

Lemma discovery_outcome {E : Env} (url : string) (vt : api.VaccineType)
    (rn : option Z) (r : result (list DachauMedVaccinationCenter)) :
  fst (_get_vaccination_centers_for url vt rn) = r ->
  _get_vaccination_centers_for url vt rn = (r, []).
Proof.
  intros <-. rewrite <- (discovery_silent url vt rn).
  destruct (_get_vaccination_centers_for url vt rn). reflexivity.
Qed.

(** (C6, amended) When a booking page is answered with a status that is
    no error (none from 400 to 599) and the parsed page has no [div] of
    class [sln-shop-list], discovery raises a [ValueError], the
    ParseError of the specification: no list of centers is returned, not
    even a partial one, and nothing is logged. *)
Theorem discovery_without_shop_list {E : Env} (url : string)
    (vt : api.VaccineType) (rn : option Z) (response : requests.Response)
    (soup : bs4.PageElement) :
  session_get url = Return response ->
  requests.raise_for_status response = Return tt ->
  _parse_html (requests.text response) = Return soup ->
  (forall e, In e (bs4.descendants soup) ->
             bs4.by_name_attr "div" "class" "sln-shop-list" e = false) ->
  exists msg,
    _get_vaccination_centers_for url vt rn = (Raise (ValueError msg), []).
Proof.
  intros Hget Hstatus Hparse Hnone. unfold _get_vaccination_centers_for.
  rewrite (bind_lift_Return _ response) by exact Hget.
  rewrite (bind_lift_Return _ tt) by exact Hstatus.
  rewrite (bind_lift_Return _ soup) by exact Hparse.
  destruct (bs4.find (bs4.by_name_attr "form" "id" "salon-step-attendant") soup)
    as [form|]; [|eexists; reflexivity].
  assert (Hfind : bs4.find (bs4.by_name_attr "div" "class" "sln-shop-list") soup = None).
  { unfold bs4.find, bs4.find_all. apply head_filter_None.
    intros x Hx. rewrite (Hnone x Hx). apply andb_false_r. }
  rewrite Hfind. eexists; reflexivity.
Qed.

Lemma discovery_without_shop_list_witness :
  let E := fixture.env fixture.answer_dates (Some JNJ_URL) in
  exists msg,
    _get_vaccination_centers_for JNJ_URL api.JohnsonAndJohnson None
    = (Raise (ValueError msg), []).
Proof.
  apply (@discovery_without_shop_list
           (fixture.env fixture.answer_dates (Some JNJ_URL))
           JNJ_URL api.JohnsonAndJohnson None
           (requests.mkResponse 200 fixture.bare_html (Raise JSONDecodeError))
           fixture.bare_soup);
    try reflexivity.
  intros e [<-|[]]. reflexivity.
Defined.

(** The proviso of C6 cannot be dropped: a page without the shop list
    that is answered with status 500 makes discovery raise [HTTPError],
    which is no [ValueError]; the page is not looked at. *)
Lemma shop_list_without_proviso_fails : ~ shop_list_without_proviso.
Proof.
  intros H.
  destruct (H (edge.env edge.server_error fixture.answer_dates)
              JNJ_URL api.JohnsonAndJohnson None
              edge.server_error fixture.bare_soup eq_refl eq_refl)
    as (e & He & Hv).
  - intros e [<-|[]]. reflexivity.
  - vm_compute in He. injection He as <-. discriminate Hv.
Qed.

(** What discovery does on that page. *)
Example discovery_server_error :
  let E := edge.env edge.server_error fixture.answer_dates in
  _get_vaccination_centers_for JNJ_URL api.JohnsonAndJohnson None
  = (Raise HTTPError, []).
Proof. reflexivity. Qed.

(** (C2) Whatever lists the four discovery calls return,
    [get_vaccination_centers] returns them joined in the order Johnson
    and Johnson without round, AstraZeneca round 2, Biontech round 1,
    Biontech round 2; every center of every call is kept, so that the
    result is as long as the four lists together. *)
Theorem get_vaccination_centers_concat {E : Env}
    (jnj astra biontech_1 biontech_2 : list DachauMedVaccinationCenter) :
  fst (_get_vaccination_centers_for JNJ_URL api.JohnsonAndJohnson None)
    = Return jnj ->
  fst (_get_vaccination_centers_for ASTRA_2_URL api.AstraZeneca (Some 2))
    = Return astra ->
  fst (_get_vaccination_centers_for BIONTECH_1_URL api.Biontech (Some 1))
    = Return biontech_1 ->
  fst (_get_vaccination_centers_for BIONTECH_2_URL api.Biontech (Some 2))
    = Return biontech_2 ->
  exists centers,
    get_vaccination_centers = (Return centers, []) /\
    centers = jnj ++ astra ++ biontech_1 ++ biontech_2 /\
    length centers
    = (length jnj + length astra + length biontech_1 + length biontech_2)%nat.
Proof.
  intros H1 H2 H3 H4. exists (jnj ++ astra ++ biontech_1 ++ biontech_2).
  split; [|split; [reflexivity|]].
  - unfold get_vaccination_centers.
    rewrite (bind_Return_nil _ jnj) by (apply discovery_outcome, H1).
    rewrite (bind_Return_nil _ astra) by (apply discovery_outcome, H2).
    rewrite (bind_Return_nil _ biontech_1) by (apply discovery_outcome, H3).
    rewrite (bind_Return_nil _ biontech_2) by (apply discovery_outcome, H4).
    unfold ret. rewrite <- !app_assoc. reflexivity.
  - rewrite !length_app. lia.
Qed.

Lemma get_vaccination_centers_concat_witness :
  let E := fixture.env fixture.answer_dates None in
  exists centers,
    get_vaccination_centers = (Return centers, []) /\
    centers = fixture.centers_of JNJ_URL api.JohnsonAndJohnson None
              ++ fixture.centers_of ASTRA_2_URL api.AstraZeneca (Some 2)
              ++ fixture.centers_of BIONTECH_1_URL api.Biontech (Some 1)
              ++ fixture.centers_of BIONTECH_2_URL api.Biontech (Some 2) /\
    length centers = (2 + 2 + 2 + 2)%nat.
Proof.
  apply (@get_vaccination_centers_concat
           (fixture.env fixture.answer_dates None)
           (fixture.centers_of JNJ_URL api.JohnsonAndJohnson None)
           (fixture.centers_of ASTRA_2_URL api.AstraZeneca (Some 2))
           (fixture.centers_of BIONTECH_1_URL api.Biontech (Some 1))
           (fixture.centers_of BIONTECH_2_URL api.Biontech (Some 2)));
    reflexivity.
Defined.

(** A failing call fails the whole: the first exception of the four calls
    is the outcome of [get_vaccination_centers]. *)
Lemma get_vaccination_centers_first_failure {E : Env} (e : exn) :
  fst (_get_vaccination_centers_for JNJ_URL api.JohnsonAndJohnson None)
    = Raise e ->
  get_vaccination_centers = (Raise e, []).
Proof.
  intros H. unfold get_vaccination_centers.
  rewrite (bind_Raise _ e []) by (apply discovery_outcome, H). reflexivity.
Qed.

Lemma comprehension_inv {A B} (f : A -> M B) (l : list A) (bs : list B) :
  fst (comprehension f l) = Return bs ->
  Forall2 (fun a b => fst (f a) = Return b) l bs.
Proof.
  revert bs. induction l as [|a l IH]; intros bs; cbn [comprehension].
  - intros [= <-]. constructor.
  - destruct (f a) as [[b|e] lf] eqn:Hf; cbn [bind]; [|discriminate].
    destruct (comprehension f l) as [[bs'|e] lc]; cbn; [|discriminate].
    intros [= <-]. constructor; [rewrite Hf; reflexivity|]. apply IH. reflexivity.
Qed.

Lemma fst_bind_Return {A B} (m : M A) (k : A -> M B) (b : B) :
  fst (bind m k) = Return b ->
  exists a, fst m = Return a /\ fst (k a) = Return b.
Proof.
  destruct m as [[a|e] l]; cbn [bind]; [|discriminate].
  intros H. exists a. split; [reflexivity|].
  destruct (k a) as [r l']. exact H.
Qed.

(** What a successful discovery went through, and what it made of the
    page. *)
Lemma discovery_inv {E : Env} (url : string) (vt : api.VaccineType)
    (rn : option Z) (centers : list DachauMedVaccinationCenter) :
  fst (_get_vaccination_centers_for url vt rn) = Return centers ->
  exists response soup shop_list,
    session_get url = Return response /\
    _parse_html (requests.text response) = Return soup /\
    bs4.find (bs4.by_name_attr "div" "class" "sln-shop-list") soup = Some shop_list /\
    Forall2 (fun opt c =>
               bs4.attrs_getitem opt "value" = Return (salon_id c) /\
               name c = str.strip (bs4.text opt) /\
               vaccine_type c = vt /\ round_num c = rn /\ dachau.url c = url)
            (bs4.find_all (bs4.named "option") shop_list) centers.
Proof.
  unfold _get_vaccination_centers_for. intros H.
  apply fst_bind_Return in H as (response & Hget & H).
  apply fst_bind_Return in H as (_ & _ & H).
  apply fst_bind_Return in H as (soup & Hsoup & H).
  destruct (bs4.find (bs4.by_name_attr "form" "id" "salon-step-attendant") soup);
    [|discriminate].
  destruct (bs4.find (bs4.by_name_attr "div" "class" "sln-shop-list") soup)
    as [shop_list|] eqn:Hlist; [|discriminate].
  apply fst_bind_Return in H as (shops & Hshops & H).
  destruct (bs4.find (bs4.by_name_attr "script" "id" "salon-js-extra") soup);
    [|discriminate].
  destruct (bs4.string_ _); [|discriminate].
  apply fst_bind_Return in H as (extra_data & _ & H).
  exists response, soup, shop_list. cbn [lift fst] in Hget, Hsoup.
  repeat split; try assumption.
  apply comprehension_inv in Hshops. apply comprehension_inv in H.
  clear Hlist. revert centers H.
  induction Hshops as [|opt shop opts shops Hopt _ IH]; intros centers H.
  - inversion H. constructor.
  - inversion H as [|? c ? centers' Hc Hcs]; subst. constructor; [|apply IH, Hcs].
    unfold shop_of in Hopt.
    apply fst_bind_Return in Hopt as (value & Hvalue & Hopt).
    cbn in Hvalue, Hopt. injection Hopt as <-.
    apply fst_bind_Return in Hc as (endpoint & _ & Hc).
    apply fst_bind_Return in Hc as (nonce & _ & Hc).
    cbn in Hc. injection Hc as <-. cbn. repeat split. exact Hvalue.
Qed.

Lemma Forall2_map_eq {A B C} (f : A -> C) (g : B -> C) (l : list A) (l' : list B) :
  Forall2 (fun a b => g b = f a) l l' -> map g l' = map f l.
Proof.
  induction 1 as [|a b l l' H _ IH]; [reflexivity|].
  cbn. rewrite H, IH. reflexivity.
Qed.

(** (C9) [location] is the same text, "Germany, Bavaria, Landkreis
    Dachau", for every center, whatever its fields hold; what the page
    says of a shop goes into [name]: the centers of a discovery carry, in
    order, the trimmed texts of the options of the shop list as their
    names. *)
Theorem location_constant_name_from_shop {E : Env} (url : string)
    (vt : api.VaccineType) (rn : option Z)
    (centers : list DachauMedVaccinationCenter) :
  fst (_get_vaccination_centers_for url vt rn) = Return centers ->
  (forall c : DachauMedVaccinationCenter,
     location c = "Germany, Bavaria, Landkreis Dachau") /\
  exists response soup shop_list,
    session_get url = Return response /\
    _parse_html (requests.text response) = Return soup /\
    bs4.find (bs4.by_name_attr "div" "class" "sln-shop-list") soup = Some shop_list /\
    map name centers
    = map (fun opt => str.strip (bs4.text opt))
          (bs4.find_all (bs4.named "option") shop_list).
Proof.
  intros H. split; [reflexivity|].
  destruct (discovery_inv url vt rn centers H)
    as (response & soup & shop_list & Hget & Hsoup & Hlist & Hall).
  exists response, soup, shop_list. repeat split; try assumption.
  apply Forall2_map_eq.
  eapply Forall2_impl; [exact Hall|]. cbn. intros opt c (_ & Hname & _). exact Hname.
Qed.

Lemma location_constant_name_from_shop_witness :
  let E := fixture.env fixture.answer_dates None in
  map location (fixture.centers_of BIONTECH_1_URL api.Biontech (Some 1))
  = ["Germany, Bavaria, Landkreis Dachau"; "Germany, Bavaria, Landkreis Dachau"] /\
  map name (fixture.centers_of BIONTECH_1_URL api.Biontech (Some 1))
  = ["Impfzentrum Dachau"; "Impfzentrum Karlsfeld"].
Proof.
  destruct (@location_constant_name_from_shop
              (fixture.env fixture.answer_dates None)
              BIONTECH_1_URL api.Biontech (Some 1)
              (fixture.centers_of BIONTECH_1_URL api.Biontech (Some 1))
              eq_refl)
    as (Hloc & response & soup & shop_list & Hget & Hsoup & Hlist & Hnames).
  split; [reflexivity|].
  injection Hget as <-. injection Hsoup as <-. injection Hlist as <-.
  exact Hnames.
Defined.

(** ** The identifier *)

(** (C7) [uid] is determined by the vaccine type and the shop id: two
    centers that agree on these two have the same [uid], whatever their
    round, name, page URL, AJAX endpoint and token are; so a shop found on
    two discovery runs keeps its [uid]. *)
Theorem uid_determined {E : Env} (c1 c2 : DachauMedVaccinationCenter) :
  vaccine_type c1 = vaccine_type c2 ->
  salon_id c1 = salon_id c2 ->
  uid c1 = uid c2.
Proof.
  intros Hvt Hid. unfold uid. rewrite Hvt, Hid. reflexivity.
Qed.

Lemma uid_determined_witness :
  let E := fixture.env fixture.answer_dates None in
  fixture.center <> fixture.center_later /\
  uid fixture.center = uid fixture.center_later.
Proof.
  split; [discriminate|].
  apply (@uid_determined (fixture.env fixture.answer_dates None)
           fixture.center fixture.center_later);
    reflexivity.
Defined.

(** The text of a [uid]. *)
Lemma uid_text {E : Env} (c : DachauMedVaccinationCenter) (shop : string) :
  salon_id c = bs4.AStr shop ->
  uid c = "impfbot.contrib.de.bavaria.dachau:" +:+ api.name (vaccine_type c)
          +:+ ":" +:+ shop.
Proof. intros H. unfold uid. rewrite H. reflexivity. Qed.

(** Discovery reads nothing of the world but the page: two worlds whose
    parsers agree and whose page at [url] has the same status and text
    give the same centers. *)
Lemma discovery_same_page (E1 E2 : Env) (url : string) (vt : api.VaccineType)
    (rn : option Z) (r1 r2 : requests.Response) :
  @session_get E1 url = Return r1 ->
  @session_get E2 url = Return r2 ->
  requests.status_code r1 = requests.status_code r2 ->
  requests.text r1 = requests.text r2 ->
  (forall v, @BeautifulSoup E1 v = @BeautifulSoup E2 v) ->
  (forall s, @json_loads E1 s = @json_loads E2 s) ->
  @_get_vaccination_centers_for E1 url vt rn
  = @_get_vaccination_centers_for E2 url vt rn.
Proof.
  intros H1 H2 Hstatus Htext Hsoup Hjson. unfold _get_vaccination_centers_for.
  rewrite (bind_lift_Return _ r1) by exact H1.
  rewrite (bind_lift_Return _ r2) by exact H2.
  unfold requests.raise_for_status, _parse_html.
  rewrite Hstatus, Htext, Hsoup.
  destruct ((400 <=? requests.status_code r2) && (requests.status_code r2 <? 600));
    [reflexivity|].
  rewrite !(bind_lift_Return _ tt _ eq_refl).
  destruct (@BeautifulSoup E2 (PStr (requests.text r2))) as [soup|e];
    [|reflexivity].
  rewrite !(bind_lift_Return _ soup _ eq_refl).
  repeat match goal with
         | |- context [match ?x with Some _ => _ | None => _ end] =>
             destruct x; [|reflexivity]
         end.
  destruct (comprehension shop_of _) as [[shops|e] l]; [|reflexivity].
  cbn [bind]. rewrite Hjson. reflexivity.
Qed.

(** ** The configuration *)

Import config.

(** (C8) [Config.load] on a settings file whose mapping has no [token]
    raises a [ConfigError]; on a file whose mapping sets [token], to a
    string, and nothing else it returns the configuration with that
    token, whatever the string is, and the defaults of the dataclass in
    all other fields: 56970700, the SQLite URL, 1200 seconds, the log
    format.  No value is validated further: a mapping that sets the
    five fields, to strings and integers, gives the configuration with
    exactly these values, whatever they are, a negative polling period
    as well as an empty token. *)
Theorem load_token_and_defaults {E : Env} (filename fp : string)
    (items : list (string * PyVal)) :
  open_ filename = Return fp ->
  yaml_load fp = Return (PDict items) ->
  (assoc "token" items = None -> load filename = (Raise ConfigError, [])) /\
  (forall t : string,
     items = [("token", PStr t)] ->
     load filename =
       ( Return (mkConfig t 56970700 "sqlite+pysqlite:///data/impfbot.db" 1200
                   "[%(asctime)s - %(levelname)s - %(name)s]: %(message)s"),
         [] )) /\
  (forall (t d l : string) (a c : Z),
     assoc "token" items = Some (PStr t) ->
     assoc "admin_chat_id" items = Some (PInt a) ->
     assoc "database_spec" items = Some (PStr d) ->
     assoc "check_period" items = Some (PInt c) ->
     assoc "log_format" items = Some (PStr l) ->
     load filename = (Return (mkConfig t a d c l), [])).
Proof.
  intros Hopen Hyaml. unfold load.
  rewrite (bind_lift_Return _ fp) by exact Hopen.
  unfold from_stream. rewrite (bind_lift_Return _ (PDict items)) by exact Hyaml.
  split; [|split].
  - intros Hnone. unfold field_str at 1. rewrite Hnone. reflexivity.
  - intros t ->. reflexivity.
  - intros t d l a c Ht Ha Hd Hc Hl. unfold field_str, field_int.
    rewrite Ht, Ha, Hd, Hc, Hl. reflexivity.
Qed.

Lemma load_token_and_defaults_witness :
  (let E := fixture.env fixture.answer_dates None in
   load "broken.yml" = (Raise ConfigError, []) /\
   load "config.yml" =
     ( Return (mkConfig "123456:ABC-DEF" 56970700
                 "sqlite+pysqlite:///data/impfbot.db" 1200
                 "[%(asctime)s - %(levelname)s - %(name)s]: %(message)s"),
       [] )) /\
  (let E := edge.env (cases.page_of fixture.page_html) fixture.answer_dates in
   load "full.yml" = (Return (mkConfig "x" (-1) "nowhere" (-5) "plain"), [])).
Proof.
  split; [split|].
  - apply (proj1 (@load_token_and_defaults (fixture.env fixture.answer_dates None)
                    "broken.yml" fixture.settings_no_token
                    [("check_period", PInt 60)] eq_refl eq_refl)).
    reflexivity.
  - apply (proj1 (proj2 (@load_token_and_defaults
                           (fixture.env fixture.answer_dates None)
                           "config.yml" fixture.settings_only_token
                           [("token", PStr "123456:ABC-DEF")] eq_refl eq_refl))).
    reflexivity.
  - apply (proj2 (proj2 (@load_token_and_defaults
                           (edge.env (cases.page_of fixture.page_html)
                              fixture.answer_dates)
                           "full.yml" edge.settings_full edge.settings_full_items
                           eq_refl eq_refl)));
      reflexivity.
Defined.

(** * Further properties *)

(** ** Discovery, step by step *)

Lemma discovery_fetched {E : Env} (url : string) (vt : api.VaccineType)
    (rn : option Z) (response : requests.Response) (soup : bs4.PageElement) :
  fetched url response soup ->
  _get_vaccination_centers_for url vt rn =
    match bs4.find is_form soup with
    | None => raise (ValueError "form#salon-step-attendant not found")
    | Some _ =>
    match bs4.find is_shop_list soup with
    | None => raise (ValueError "div.sln-shop-list not found")
    | Some shop_list =>
    shops <- comprehension shop_of (options_of shop_list) ;;
    match bs4.find is_extra_script soup with
    | None => raise (ValueError "script#salon-js-extra not found")
    | Some salon_extra =>
    match bs4.string_ salon_extra with
    | None => raise AttributeError
    | Some script =>
    extra_data <- lift (json_loads (payload_of script)) ;;
    comprehension (fun shop : bs4.AttrValue * string =>
        endpoint <- lift (getitem extra_data "ajax_url") ;;
        nonce <- lift (getitem extra_data "ajax_nonce") ;;
        ret (mkCenter vt rn (snd shop) (fst shop) url endpoint nonce))
      shops
    end end end end.
Proof.
  intros (Hget & Hstatus & Hparse). unfold _get_vaccination_centers_for.
  rewrite (bind_lift_Return _ response) by exact Hget.
  rewrite (bind_lift_Return _ tt) by exact Hstatus.
  rewrite (bind_lift_Return _ soup) by exact Hparse.
  reflexivity.
Qed.

Lemma shop_of_value (opt : bs4.PageElement) :
  bs4.has_attr "value" opt = true ->
  shop_of opt = (Return (option_value opt, str.strip (bs4.text opt)), []).
Proof.
  unfold bs4.has_attr, shop_of, bs4.attrs_getitem, option_value.
  destruct (bs4.attrs_of opt !! "value"); [reflexivity|discriminate].
Qed.

Lemma shop_of_no_value (opt : bs4.PageElement) :
  bs4.has_attr "value" opt = false ->
  shop_of opt = (Raise (KeyError "value"), []).
Proof.
  unfold bs4.has_attr, shop_of, bs4.attrs_getitem.
  destruct (bs4.attrs_of opt !! "value"); [discriminate|reflexivity].
Qed.

Lemma shops_of_options (options : list bs4.PageElement) :
  (forall opt, In opt options -> bs4.has_attr "value" opt = true) ->
  comprehension shop_of options =
    (Return (map (fun opt => (option_value opt, str.strip (bs4.text opt))) options),
     []).
Proof.
  intros H. apply comprehension_Return. intros opt Hin.
  apply shop_of_value, H, Hin.
Qed.

(** (X1) A page that was fetched and has the form, the shop list and the
    script, with a [value] on every option and a JSON object holding
    [ajax_url] and [ajax_nonce] after the script's first [=], gives one
    center per option of the shop list, in document order: each with the
    vaccine type, round and URL of the call, the option's trimmed text
    as name, its [value] as shop id, and the endpoint and token of the
    script. *)
Theorem discovery_centers {E : Env} (url : string) (vt : api.VaccineType)
    (rn : option Z) (response : requests.Response)
    (soup form shop_list salon_extra : bs4.PageElement) (script : string)
    (extra_data endpoint nonce : PyVal) :
  fetched url response soup ->
  bs4.find is_form soup = Some form ->
  bs4.find is_shop_list soup = Some shop_list ->
  (forall opt, In opt (options_of shop_list) -> bs4.has_attr "value" opt = true) ->
  bs4.find is_extra_script soup = Some salon_extra ->
  bs4.string_ salon_extra = Some script ->
  json_loads (payload_of script) = Return extra_data ->
  getitem extra_data "ajax_url" = Return endpoint ->
  getitem extra_data "ajax_nonce" = Return nonce ->
  _get_vaccination_centers_for url vt rn =
    (Return (map (center_of vt rn url endpoint nonce) (options_of shop_list)), []).
Proof.
  intros Hpage Hform Hlist Hvalues Hscript Hstring Hloads Hurl Hnonce.
  rewrite (discovery_fetched url vt rn response soup Hpage).
  rewrite Hform, Hlist.
  rewrite (bind_Return_nil _ _ _ (shops_of_options _ Hvalues)).
  rewrite Hscript, Hstring.
  rewrite (bind_lift_Return _ extra_data) by exact Hloads.
  rewrite (comprehension_Return _
             (fun shop : bs4.AttrValue * string =>
                mkCenter vt rn (snd shop) (fst shop) url endpoint nonce)).
  - rewrite map_map. reflexivity.
  - intros shop _.
    rewrite (bind_lift_Return _ endpoint) by exact Hurl.
    rewrite (bind_lift_Return _ nonce) by exact Hnonce.
    reflexivity.
Qed.

Lemma discovery_centers_witness :
  let E := fixture.env fixture.answer_dates None in
  _get_vaccination_centers_for ASTRA_2_URL api.AstraZeneca (Some 2) =
    (Return (fixture.centers_of ASTRA_2_URL api.AstraZeneca (Some 2)), []).
Proof.
  intros E.
  transitivity
    (Return (map (center_of api.AstraZeneca (Some 2) ASTRA_2_URL
                    (PStr "https://termin.dachau-med.de/wp-admin/admin-ajax.php")
                    (PStr "5f0c1d2e3a"))
               (options_of
                  (cases.shop_list_with
                     [ bs4.Tag "option" {[ "value" := bs4.AStr "12" ]}
                         [ bs4.NavigableString bs4.Text " Impfzentrum Dachau " ];
                       bs4.Tag "option" {[ "value" := bs4.AStr "13" ]}
                         [ bs4.NavigableString bs4.Text "Impfzentrum Karlsfeld" ] ]))),
     @nil logging.LogRecord);
    [|reflexivity].
  apply (@discovery_centers (fixture.env fixture.answer_dates None)
           ASTRA_2_URL api.AstraZeneca (Some 2)
           (requests.mkResponse 200 fixture.page_html (Raise JSONDecodeError))
           fixture.page_soup
           (cases.form_with
              [ cases.shop_list_with
                  [ bs4.Tag "option" {[ "value" := bs4.AStr "12" ]}
                      [ bs4.NavigableString bs4.Text " Impfzentrum Dachau " ];
                    bs4.Tag "option" {[ "value" := bs4.AStr "13" ]}
                      [ bs4.NavigableString bs4.Text "Impfzentrum Karlsfeld" ] ] ])
           (cases.shop_list_with
              [ bs4.Tag "option" {[ "value" := bs4.AStr "12" ]}
                  [ bs4.NavigableString bs4.Text " Impfzentrum Dachau " ];
                bs4.Tag "option" {[ "value" := bs4.AStr "13" ]}
                  [ bs4.NavigableString bs4.Text "Impfzentrum Karlsfeld" ] ])
           (cases.script_with fixture.extra_script)
           fixture.extra_script fixture.extra_data
           (PStr "https://termin.dachau-med.de/wp-admin/admin-ajax.php")
           (PStr "5f0c1d2e3a"));
    try reflexivity.
  - repeat split; reflexivity.
  - intros opt [<-|[<-|[]]]; reflexivity.
Defined.

(** (X3) A booking page answered with a status from 400 to 599 makes
    discovery raise [HTTPError]; the body is not parsed, so this holds
    whatever the body is. *)
Theorem discovery_http_error {E : Env} (url : string) (vt : api.VaccineType)
    (rn : option Z) (response : requests.Response) :
  session_get url = Return response ->
  400 <= requests.status_code response < 600 ->
  _get_vaccination_centers_for url vt rn = (Raise HTTPError, []).
Proof.
  intros Hget Hstatus. unfold _get_vaccination_centers_for.
  rewrite (bind_lift_Return _ response) by exact Hget.
  unfold requests.raise_for_status.
  replace ((400 <=? requests.status_code response)
           && (requests.status_code response <? 600)) with true; [reflexivity|].
  symmetry. apply andb_true_intro. split; [apply Z.leb_le|apply Z.ltb_lt]; lia.
Qed.

Lemma discovery_http_error_witness :
  let E := cases.env cases.not_found fixture.answer_dates in
  _get_vaccination_centers_for JNJ_URL api.JohnsonAndJohnson None
  = (Raise HTTPError, []).
Proof.
  apply (@discovery_http_error (cases.env cases.not_found fixture.answer_dates)
           JNJ_URL api.JohnsonAndJohnson None cases.not_found);
    [reflexivity|cbn; lia].
Defined.

Lemma find_none (accept : bs4.PageElement -> bool) (soup : bs4.PageElement) :
  (forall e, In e (bs4.descendants soup) -> accept e = false) ->
  bs4.find accept soup = None.
Proof.
  intros H. unfold bs4.find, bs4.find_all. apply head_filter_None.
  intros x Hx. rewrite (H x Hx). apply andb_false_r.
Qed.

(** (X4) The form is looked for first: a fetched page without a [form]
    of id [salon-step-attendant] makes discovery raise the [ValueError]
    that names the form, also when the shop list and the script are
    there. *)
Theorem discovery_without_form {E : Env} (url : string) (vt : api.VaccineType)
    (rn : option Z) (response : requests.Response) (soup : bs4.PageElement) :
  fetched url response soup ->
  (forall e, In e (bs4.descendants soup) -> is_form e = false) ->
  _get_vaccination_centers_for url vt rn =
    (Raise (ValueError "form#salon-step-attendant not found"), []).
Proof.
  intros Hpage Hnone.
  rewrite (discovery_fetched url vt rn response soup Hpage).
  rewrite (find_none _ _ Hnone). reflexivity.
Qed.

Lemma discovery_without_form_witness :
  let E := cases.env (cases.page_of cases.no_form_html) fixture.answer_dates in
  bs4.find is_shop_list cases.no_form_soup <> None /\
  bs4.find is_extra_script cases.no_form_soup <> None /\
  _get_vaccination_centers_for JNJ_URL api.JohnsonAndJohnson None =
    (Raise (ValueError "form#salon-step-attendant not found"), []).
Proof.
  split; [discriminate|]. split; [discriminate|].
  apply (@discovery_without_form
           (cases.env (cases.page_of cases.no_form_html) fixture.answer_dates)
           JNJ_URL api.JohnsonAndJohnson None
           (cases.page_of cases.no_form_html) cases.no_form_soup).
  - repeat split; reflexivity.
  - intros e He. cbn in He.
    repeat (destruct He as [<-|He]; [reflexivity|]). destruct He.
Defined.

(** (X5) On a fetched page that has the form and the shop list, the
    first option of the shop list without a [value] attribute makes
    discovery raise [KeyError('value')]: the options are read before the
    script is looked for, so this is the outcome also when the page has
    no script, and the options before the faulty one yield no center. *)
Theorem discovery_option_without_value {E : Env} (url : string)
    (vt : api.VaccineType) (rn : option Z) (response : requests.Response)
    (soup form shop_list opt : bs4.PageElement)
    (before after : list bs4.PageElement) :
  fetched url response soup ->
  bs4.find is_form soup = Some form ->
  bs4.find is_shop_list soup = Some shop_list ->
  options_of shop_list = before ++ opt :: after ->
  (forall o, In o before -> bs4.has_attr "value" o = true) ->
  bs4.has_attr "value" opt = false ->
  _get_vaccination_centers_for url vt rn = (Raise (KeyError "value"), []).
Proof.
  intros Hpage Hform Hlist Hopts Hbefore Hopt.
  rewrite (discovery_fetched url vt rn response soup Hpage).
  rewrite Hform, Hlist, Hopts.
  assert (Hshops : comprehension shop_of (before ++ opt :: after)
                   = (Raise (KeyError "value"), [])).
  { clear Hopts. induction before as [|o before IH]; cbn [app comprehension].
    - rewrite (shop_of_no_value opt Hopt). reflexivity.
    - rewrite (bind_Return_nil _ _ _ (shop_of_value o (Hbefore o (or_introl eq_refl)))).
      rewrite IH by (intros; apply Hbefore; right; assumption). reflexivity. }
  rewrite (bind_Raise _ _ _ _ Hshops). reflexivity.
Qed.

Lemma discovery_option_without_value_witness :
  let E := cases.env (cases.page_of cases.prompt_html) fixture.answer_dates in
  bs4.find is_extra_script cases.prompt_soup = None /\
  _get_vaccination_centers_for BIONTECH_1_URL api.Biontech (Some 1)
  = (Raise (KeyError "value"), []).
Proof.
  split; [reflexivity|].
  apply (@discovery_option_without_value
           (cases.env (cases.page_of cases.prompt_html) fixture.answer_dates)
           BIONTECH_1_URL api.Biontech (Some 1)
           (cases.page_of cases.prompt_html) cases.prompt_soup
           (cases.form_with
              [ cases.shop_list_with [cases.option_dachau; cases.option_prompt] ])
           (cases.shop_list_with [cases.option_dachau; cases.option_prompt])
           cases.option_prompt [cases.option_dachau] []);
    try reflexivity.
  - repeat split; reflexivity.
  - intros o [<-|[]]. reflexivity.
Defined.

(** (X6) A fetched page with the form and a shop list whose options all
    have a [value], but without a [script] of id [salon-js-extra], makes
    discovery raise the [ValueError] that names the script. *)
Theorem discovery_without_script {E : Env} (url : string) (vt : api.VaccineType)
    (rn : option Z) (response : requests.Response)
    (soup form shop_list : bs4.PageElement) :
  fetched url response soup ->
  bs4.find is_form soup = Some form ->
  bs4.find is_shop_list soup = Some shop_list ->
  (forall opt, In opt (options_of shop_list) -> bs4.has_attr "value" opt = true) ->
  (forall e, In e (bs4.descendants soup) -> is_extra_script e = false) ->
  _get_vaccination_centers_for url vt rn =
    (Raise (ValueError "script#salon-js-extra not found"), []).
Proof.
  intros Hpage Hform Hlist Hvalues Hnone.
  rewrite (discovery_fetched url vt rn response soup Hpage).
  rewrite Hform, Hlist.
  rewrite (bind_Return_nil _ _ _ (shops_of_options _ Hvalues)).
  rewrite (find_none _ _ Hnone). reflexivity.
Qed.

Lemma discovery_without_script_witness :
  let E := cases.env (cases.page_of cases.no_script_html) fixture.answer_dates in
  _get_vaccination_centers_for BIONTECH_1_URL api.Biontech (Some 1) =
    (Raise (ValueError "script#salon-js-extra not found"), []).
Proof.
  apply (@discovery_without_script
           (cases.env (cases.page_of cases.no_script_html) fixture.answer_dates)
           BIONTECH_1_URL api.Biontech (Some 1)
           (cases.page_of cases.no_script_html) cases.no_script_soup
           (cases.form_with [ cases.shop_list_with [cases.option_dachau] ])
           (cases.shop_list_with [cases.option_dachau]));
    try reflexivity.
  - repeat split; reflexivity.
  - intros o [<-|[]]. reflexivity.
  - intros e He. cbn in He.
    repeat (destruct He as [<-|He]; [reflexivity|]). destruct He.
Defined.

(** (X7) The keys of the script's JSON are read once per shop, not
    before: on a fetched page that has the form, a shop list without any
    option, and the script with one string whose payload is JSON,
    discovery returns the empty list whatever value the JSON text parses
    to, an object without [ajax_url] and [ajax_nonce] or no object at
    all. *)
Theorem discovery_no_options {E : Env} (url : string) (vt : api.VaccineType)
    (rn : option Z) (response : requests.Response)
    (soup form shop_list salon_extra : bs4.PageElement) (script : string)
    (extra_data : PyVal) :
  fetched url response soup ->
  bs4.find is_form soup = Some form ->
  bs4.find is_shop_list soup = Some shop_list ->
  options_of shop_list = [] ->
  bs4.find is_extra_script soup = Some salon_extra ->
  bs4.string_ salon_extra = Some script ->
  json_loads (payload_of script) = Return extra_data ->
  _get_vaccination_centers_for url vt rn = (Return [], []).
Proof.
  intros Hpage Hform Hlist Hopts Hscript Hstring Hloads.
  rewrite (discovery_fetched url vt rn response soup Hpage).
  rewrite Hform, Hlist, Hopts. cbn [comprehension].
  rewrite (bind_Return_nil (ret []) [] _ eq_refl).
  rewrite Hscript, Hstring.
  rewrite (bind_lift_Return _ extra_data) by exact Hloads. reflexivity.
Qed.

Lemma discovery_no_options_witness :
  let E := cases.env (cases.page_of cases.empty_list_html) fixture.answer_dates in
  getitem (PDict []) "ajax_url" = Raise (KeyError "ajax_url") /\
  _get_vaccination_centers_for BIONTECH_1_URL api.Biontech (Some 1)
  = (Return [], []).
Proof.
  split; [reflexivity|].
  apply (@discovery_no_options
           (cases.env (cases.page_of cases.empty_list_html) fixture.answer_dates)
           BIONTECH_1_URL api.Biontech (Some 1)
           (cases.page_of cases.empty_list_html) cases.empty_list_soup
           (cases.form_with [ cases.shop_list_with [] ])
           (cases.shop_list_with [])
           (cases.script_with "var salon = {};") "var salon = {};" (PDict []));
    try reflexivity.
  repeat split; reflexivity.
Defined.

(** (X8) On a fetched page that has the form, a shop list with at least
    one option, all options with a [value], and the script with one
    string, a payload that is a JSON object without [ajax_url] makes
    discovery raise [KeyError('ajax_url')], and one with [ajax_url] but
    without [ajax_nonce] [KeyError('ajax_nonce')]; no center is
    returned. *)
Theorem discovery_missing_key {E : Env} (url : string) (vt : api.VaccineType)
    (rn : option Z) (response : requests.Response)
    (soup form shop_list salon_extra : bs4.PageElement) (script : string)
    (items : list (string * PyVal)) :
  fetched url response soup ->
  bs4.find is_form soup = Some form ->
  bs4.find is_shop_list soup = Some shop_list ->
  options_of shop_list <> [] ->
  (forall opt, In opt (options_of shop_list) -> bs4.has_attr "value" opt = true) ->
  bs4.find is_extra_script soup = Some salon_extra ->
  bs4.string_ salon_extra = Some script ->
  json_loads (payload_of script) = Return (PDict items) ->
  (assoc "ajax_url" items = None ->
   _get_vaccination_centers_for url vt rn = (Raise (KeyError "ajax_url"), [])) /\
  (assoc "ajax_url" items <> None -> assoc "ajax_nonce" items = None ->
   _get_vaccination_centers_for url vt rn = (Raise (KeyError "ajax_nonce"), [])).
Proof.
  intros Hpage Hform Hlist Hsome Hvalues Hscript Hstring Hloads.
  rewrite (discovery_fetched url vt rn response soup Hpage).
  rewrite Hform, Hlist.
  rewrite (bind_Return_nil _ _ _ (shops_of_options _ Hvalues)).
  rewrite Hscript, Hstring.
  rewrite (bind_lift_Return _ (PDict items)) by exact Hloads.
  destruct (options_of shop_list) as [|opt options]; [congruence|].
  cbn [map comprehension getitem]. split.
  - intros ->. reflexivity.
  - intros Hurl ->. destruct (assoc "ajax_url" items); [reflexivity|congruence].
Qed.

Lemma discovery_missing_key_witness :
  let E := cases.env (cases.page_of cases.no_keys_html) fixture.answer_dates in
  _get_vaccination_centers_for BIONTECH_1_URL api.Biontech (Some 1)
  = (Raise (KeyError "ajax_url"), []).
Proof.
  apply (@discovery_missing_key
           (cases.env (cases.page_of cases.no_keys_html) fixture.answer_dates)
           BIONTECH_1_URL api.Biontech (Some 1)
           (cases.page_of cases.no_keys_html) cases.no_keys_soup
           (cases.form_with [ cases.shop_list_with [cases.option_dachau] ])
           (cases.shop_list_with [cases.option_dachau])
           (cases.script_with "var salon = {};") "var salon = {};" []);
    try reflexivity.
  - repeat split; reflexivity.
  - discriminate.
  - intros o [<-|[]]. reflexivity.
Defined.

Lemma shop_of_inv (opt : bs4.PageElement) (shop : bs4.AttrValue * string) :
  fst (shop_of opt) = Return shop ->
  shop = (option_value opt, str.strip (bs4.text opt)).
Proof.
  unfold shop_of, bs4.attrs_getitem, option_value.
  destruct (bs4.attrs_of opt !! "value"); cbn; [|discriminate].
  intros [= <-]. reflexivity.
Qed.

Lemma discovery_shape {E : Env} (url : string) (vt : api.VaccineType)
    (rn : option Z) (centers : list DachauMedVaccinationCenter) :
  fst (_get_vaccination_centers_for url vt rn) = Return centers ->
  exists response soup shop_list endpoint nonce,
    fetched url response soup /\
    bs4.find is_shop_list soup = Some shop_list /\
    centers = map (center_of vt rn url endpoint nonce) (options_of shop_list) /\
    length centers = length (options_of shop_list).
Proof.
  unfold _get_vaccination_centers_for. intros H.
  apply fst_bind_Return in H as (response & Hget & H).
  apply fst_bind_Return in H as ([] & Hstatus & H).
  apply fst_bind_Return in H as (soup & Hsoup & H).
  destruct (bs4.find (bs4.by_name_attr "form" "id" "salon-step-attendant") soup);
    [|discriminate].
  destruct (bs4.find (bs4.by_name_attr "div" "class" "sln-shop-list") soup)
    as [shop_list|] eqn:Hlist; [|discriminate].
  apply fst_bind_Return in H as (shops & Hshops & H).
  destruct (bs4.find (bs4.by_name_attr "script" "id" "salon-js-extra") soup);
    [|discriminate].
  destruct (bs4.string_ _); [|discriminate].
  apply fst_bind_Return in H as (extra_data & _ & H).
  cbn [lift fst] in Hget, Hstatus, Hsoup.
  exists response, soup, shop_list,
    (value_or_none (getitem extra_data "ajax_url")),
    (value_or_none (getitem extra_data "ajax_nonce")).
  split; [repeat split; assumption|]. split; [exact Hlist|].
  apply comprehension_inv in Hshops. apply comprehension_inv in H.
  fold (options_of shop_list) in Hshops.
  assert (Heq : centers
                = map (center_of vt rn url
                         (value_or_none (getitem extra_data "ajax_url"))
                         (value_or_none (getitem extra_data "ajax_nonce")))
                      (options_of shop_list)).
  { clear Hlist. revert centers H.
    induction Hshops as [|opt shop opts shops Hopt _ IH]; intros centers H.
    - inversion H. reflexivity.
    - inversion H as [|? c ? centers' Hc Hcs]; subst. cbn [map].
      rewrite <- (IH centers' Hcs). f_equal.
      apply shop_of_inv in Hopt as ->.
      apply fst_bind_Return in Hc as (endpoint & Hurl & Hc).
      apply fst_bind_Return in Hc as (nonce & Hnonce & Hc).
      cbn [lift fst] in Hurl, Hnonce. rewrite Hurl, Hnonce.
      cbn in Hc. injection Hc as <-. reflexivity. }
  split; [exact Heq|]. rewrite Heq. apply length_map.
Qed.

(** (X2) Whenever discovery returns, the page was fetched with a good
    status and has a shop list, and the centers are, in document order,
    those of the options of the first shop list: as many as there are
    options, each with the vaccine type, round and URL of the call, its
    option's trimmed text and [value], and all with one and the same
    endpoint and token. *)
Theorem discovery_centers_inv {E : Env} (url : string) (vt : api.VaccineType)
    (rn : option Z) (centers : list DachauMedVaccinationCenter) :
  fst (_get_vaccination_centers_for url vt rn) = Return centers ->
  exists response soup shop_list endpoint nonce,
    fetched url response soup /\
    bs4.find is_shop_list soup = Some shop_list /\
    centers = map (center_of vt rn url endpoint nonce) (options_of shop_list) /\
    length centers = length (options_of shop_list).
Proof. apply discovery_shape. Qed.

Lemma discovery_centers_inv_witness :
  let E := fixture.env fixture.answer_dates None in
  exists response soup shop_list endpoint nonce,
    fetched BIONTECH_2_URL response soup /\
    bs4.find is_shop_list soup = Some shop_list /\
    fixture.centers_of BIONTECH_2_URL api.Biontech (Some 2)
    = map (center_of api.Biontech (Some 2) BIONTECH_2_URL endpoint nonce)
          (options_of shop_list) /\
    length (fixture.centers_of BIONTECH_2_URL api.Biontech (Some 2))
    = length (options_of shop_list).
Proof.
  apply (@discovery_centers_inv (fixture.env fixture.answer_dates None)
           BIONTECH_2_URL api.Biontech (Some 2)
           (fixture.centers_of BIONTECH_2_URL api.Biontech (Some 2))).
  reflexivity.
Defined.

(** ** The script's payload *)

Lemma split_first_at (pre after : string) :
  all_chars not_equals_sign pre = true ->
  str.split_first "=" (pre +:+ String "=" after) = Some (pre, after).
Proof.
  induction pre as [|c pre IH]; intros H.
  - change (EmptyString +:+ String "=" after) with (String "=" after).
    cbn [str.split_first String.prefix].
    destruct (ascii_dec "=" "=") as [_|Hne]; [|congruence].
    destruct after; reflexivity.
  - cbn [all_chars] in H. apply andb_prop in H as [Hc Hpre].
    rewrite append_cons. cbn [str.split_first String.prefix].
    destruct (ascii_dec "=" c) as [<-|_]; [discriminate Hc|].
    rewrite (IH Hpre). reflexivity.
Qed.

Lemma lstrip_by_lead (p : ascii -> bool) (lead : string) (c : ascii) (s : string) :
  all_chars p lead = true -> p c = false ->
  str.lstrip_by p (lead +:+ String c s) = String c s.
Proof.
  intros Hlead Hc. induction lead as [|x lead IH].
  - change (EmptyString +:+ String c s) with (String c s).
    cbn [str.lstrip_by]. rewrite Hc. reflexivity.
  - cbn [all_chars] in Hlead. apply andb_prop in Hlead as [Hx Hlead].
    rewrite append_cons. cbn [str.lstrip_by]. rewrite Hx. apply IH, Hlead.
Qed.

Lemma rstrip_by_all (p : ascii -> bool) (s : string) :
  all_chars p s = true -> str.rstrip_by p s = EmptyString.
Proof.
  induction s as [|c s IH]; [reflexivity|]. cbn [all_chars str.rstrip_by].
  intros H. apply andb_prop in H as [Hc Hs]. rewrite (IH Hs), Hc. reflexivity.
Qed.

Lemma rstrip_by_trail (p : ascii -> bool) (s trail : string) :
  all_chars p trail = true ->
  str.rstrip_by p (s +:+ trail) = str.rstrip_by p s.
Proof.
  intros H. induction s as [|c s IH].
  - change (EmptyString +:+ trail) with trail. apply rstrip_by_all, H.
  - rewrite append_cons. cbn [str.rstrip_by]. rewrite IH. reflexivity.
Qed.

Lemma rstrip_by_clear (p : ascii -> bool) (s : string) :
  ends_clear p s = true -> str.rstrip_by p s = s.
Proof.
  induction s as [|c s IH]; [discriminate|].
  destruct s as [|c' s].
  - cbn. intros H. apply negb_true_iff in H. rewrite H. reflexivity.
  - intros H. change (ends_clear p (String c' s) = true) in H.
    specialize (IH H). change (str.rstrip_by p (String c (String c' s)))
      with (match str.rstrip_by p (String c' s) with
            | EmptyString => if p c then EmptyString else String c EmptyString
            | r => String c r
            end).
    rewrite IH. reflexivity.
Qed.

Lemma ends_clear_weaken (p q : ascii -> bool) (s : string) :
  (forall c, p c = false -> q c = false) ->
  ends_clear p s = true -> ends_clear q s = true.
Proof.
  intros Hpq. induction s as [|c s IH]; [discriminate|].
  destruct s as [|c' s].
  - cbn. intros H. apply negb_true_iff in H. apply negb_true_iff, Hpq, H.
  - exact IH.
Qed.

Lemma ends_clear_tail (p q : ascii -> bool) (t : string) :
  (forall c, q c = true -> p c = false) ->
  forall c, p c = false -> all_chars q t = true ->
            ends_clear p (String c t) = true.
Proof.
  intros Hqp. induction t as [|y t IH]; intros c Hc Ht.
  - cbn. rewrite Hc. reflexivity.
  - change (ends_clear p (String c (String y t)))
      with (ends_clear p (String y t)).
    cbn [all_chars] in Ht. apply andb_prop in Ht as [Hy Ht].
    apply IH; [apply Hqp, Hy|exact Ht].
Qed.

Lemma ends_clear_app (p q : ascii -> bool) (s t : string) :
  (forall c, q c = true -> p c = false) ->
  ends_clear (fun c => p c || q c) s = true -> all_chars q t = true ->
  ends_clear p (s +:+ t) = true.
Proof.
  intros Hqp Hs Ht. induction s as [|c s IH]; [discriminate|].
  destruct s as [|c' s].
  - cbn in Hs. apply negb_true_iff, orb_false_iff in Hs as [Hc _].
    rewrite append_cons. change (EmptyString +:+ t) with t.
    apply (ends_clear_tail p q); assumption.
  - rewrite !append_cons.
    change (ends_clear p (String c (String c' (s +:+ t))))
      with (ends_clear p (String c' (s +:+ t))).
    rewrite <- append_cons. apply IH. exact Hs.
Qed.

(** (X9) From a script of the form [name = JSON;] the text handed to
    [json.loads] is the JSON text alone: with no [=] before the
    assignment's, blanks around, and semicolons after a text that starts
    with a non-blank and ends with neither a blank nor a semicolon, what
    is cut out is that text. *)
Theorem payload_of_assignment (pre lead semis trail : string) (first : ascii)
    (rest : string) :
  all_chars not_equals_sign pre = true ->
  all_chars str.isspace lead = true ->
  str.isspace first = false ->
  ends_clear is_blank_or_semicolon (String first rest) = true ->
  all_chars is_semicolon semis = true ->
  all_chars str.isspace trail = true ->
  payload_of (pre +:+ String "=" (lead +:+ String first rest +:+ semis +:+ trail))
  = String first rest.
Proof.
  intros Hpre Hlead Hfirst Hlast Hsemis Htrail.
  unfold payload_of, str.partition. rewrite (split_first_at _ _ Hpre).
  cbn [snd]. unfold str.strip.
  rewrite append_cons, (lstrip_by_lead _ _ _ _ Hlead Hfirst), <- append_cons.
  rewrite <- append_assoc, (rstrip_by_trail _ _ _ Htrail).
  rewrite (rstrip_by_clear str.isspace).
  - unfold str.rstrip. change (fun c => str.mem c ";") with is_semicolon.
    rewrite (rstrip_by_trail _ _ _ Hsemis). apply rstrip_by_clear.
    apply (ends_clear_weaken is_blank_or_semicolon); [|exact Hlast].
    intros c Hc. apply orb_false_iff in Hc as [_ Hc]. exact Hc.
  - apply (ends_clear_app str.isspace is_semicolon); [|exact Hlast|exact Hsemis].
    intros c Hc. unfold is_semicolon in Hc. cbn in Hc.
    rewrite orb_false_r in Hc. apply Ascii.eqb_eq in Hc as ->. reflexivity.
Qed.

Lemma payload_of_assignment_witness :
  fixture.extra_script
  = "var salon " +:+ String "=" (" " +:+ fixture.extra_payload +:+ ";" +:+ "") /\
  payload_of fixture.extra_script = fixture.extra_payload.
Proof.
  split; [reflexivity|].
  change (payload_of ("var salon " +:+ String "=" (" " +:+ String "{"
            (fixture.dq +:+ "ajax_url" +:+ fixture.dq +:+ ":" +:+ fixture.dq
             +:+ "https://termin.dachau-med.de/wp-admin/admin-ajax.php"
             +:+ fixture.dq +:+ "," +:+ fixture.dq +:+ "ajax_nonce" +:+ fixture.dq
             +:+ ":" +:+ fixture.dq +:+ "5f0c1d2e3a" +:+ fixture.dq +:+ "}")
            +:+ ";" +:+ ""))
          = String "{"
            (fixture.dq +:+ "ajax_url" +:+ fixture.dq +:+ ":" +:+ fixture.dq
             +:+ "https://termin.dachau-med.de/wp-admin/admin-ajax.php"
             +:+ fixture.dq +:+ "," +:+ fixture.dq +:+ "ajax_nonce" +:+ fixture.dq
             +:+ ":" +:+ fixture.dq +:+ "5f0c1d2e3a" +:+ fixture.dq +:+ "}")).
  apply payload_of_assignment; reflexivity.
Defined.

(** ** The four pages together *)

(** (X10) [get_vaccination_centers] is all or nothing: it returns the
    four lists joined when all four discoveries return, and otherwise
    raises the exception of the first discovery that fails, in the order
    Johnson and Johnson, AstraZeneca, Biontech 1, Biontech 2, without the
    centers found before; in no case does it log. *)
Theorem get_vaccination_centers_all_or_nothing {E : Env} :
  get_vaccination_centers =
    ( joined
        (joined
           (joined
              (fst (_get_vaccination_centers_for JNJ_URL api.JohnsonAndJohnson None))
              (fst (_get_vaccination_centers_for ASTRA_2_URL api.AstraZeneca (Some 2))))
           (fst (_get_vaccination_centers_for BIONTECH_1_URL api.Biontech (Some 1))))
        (fst (_get_vaccination_centers_for BIONTECH_2_URL api.Biontech (Some 2))),
      [] ).
Proof.
  unfold get_vaccination_centers.
  rewrite (discovery_outcome JNJ_URL api.JohnsonAndJohnson None _ eq_refl).
  rewrite (discovery_outcome ASTRA_2_URL api.AstraZeneca (Some 2) _ eq_refl).
  rewrite (discovery_outcome BIONTECH_1_URL api.Biontech (Some 1) _ eq_refl).
  rewrite (discovery_outcome BIONTECH_2_URL api.Biontech (Some 2) _ eq_refl).
  destruct (fst (_get_vaccination_centers_for JNJ_URL _ _)); [|reflexivity].
  destruct (fst (_get_vaccination_centers_for ASTRA_2_URL _ _)); [|reflexivity].
  destruct (fst (_get_vaccination_centers_for BIONTECH_1_URL _ _)); [|reflexivity].
  destruct (fst (_get_vaccination_centers_for BIONTECH_2_URL _ _)); reflexivity.
Qed.

(** One page broken among four: the centers of the pages before are not
    returned. *)
Example get_vaccination_centers_third_page_broken :
  let E := fixture.env fixture.answer_dates (Some BIONTECH_1_URL) in
  get_vaccination_centers = (Raise (ValueError "div.sln-shop-list not found"), []).
Proof. reflexivity. Qed.

(** ** The identifier, the other way round *)

(** (X11) Centers with different vaccine types or different shop ids
    have different [uid]s: for shop ids that are strings, equal [uid]s
    come only from an equal vaccine type and an equal shop id. *)
Theorem uid_injective {E : Env} (c1 c2 : DachauMedVaccinationCenter)
    (shop1 shop2 : string) :
  salon_id c1 = bs4.AStr shop1 ->
  salon_id c2 = bs4.AStr shop2 ->
  uid c1 = uid c2 ->
  vaccine_type c1 = vaccine_type c2 /\ shop1 = shop2.
Proof.
  intros H1 H2. unfold uid. rewrite H1, H2. cbn [format_attr].
  destruct (vaccine_type c1), (vaccine_type c2); intros H; vm_compute in H;
    solve [discriminate H | injection H as ->; split; reflexivity].
Qed.

Lemma uid_injective_witness :
  let E := fixture.env fixture.answer_dates None in
  vaccine_type fixture.center = vaccine_type fixture.center_later /\
  "12" = "12".
Proof.
  apply (@uid_injective (fixture.env fixture.answer_dates None)
           fixture.center fixture.center_later "12" "12");
    reflexivity.
Defined.

(** Two doses, one identifier: the centers the two Biontech pages give
    for one shop differ in their round and share their [uid]. *)
Example uid_shared_by_rounds :
  let E := fixture.env fixture.answer_dates None in
  map uid (fixture.centers_of BIONTECH_1_URL api.Biontech (Some 1))
  = map uid (fixture.centers_of BIONTECH_2_URL api.Biontech (Some 2)).
Proof. reflexivity. Qed.

(** ** The availability check, case by case *)

Lemma check_availability_parsed {E : Env}
    (self : DachauMedVaccinationCenter) (response : requests.Response)
    (content : PyVal) (soup : bs4.PageElement) :
  content_parsed self response content soup ->
  check_availability self =
    match bs4.find (bs4.has_attr "data-intervals") soup with
    | None => logger_error not_found_msg [content] ;;; ret []
    | Some data_node =>
        value <- lift (bs4.attrs_getitem data_node "data-intervals") ;;
        intervals <- lift (json_loads_attr value) ;;
        entries <- lift (getitem intervals "dates") ;;
        entries <- lift (iterate entries) ;;
        dates <- comprehension (fun d => lift (strptime_Ymd d)) entries ;;
        ret [the_entry self dates]
    end.
Proof.
  intros (Hpost & Hmark & (body & Hjson & Hcontent) & Hsoup).
  unfold check_availability.
  rewrite (bind_lift_Return _ response) by exact Hpost.
  fold marker. rewrite Hmark.
  rewrite (bind_lift_Return _ body) by exact Hjson.
  rewrite (bind_lift_Return _ content) by exact Hcontent.
  rewrite (bind_lift_Return _ soup) by exact Hsoup.
  reflexivity.
Qed.

Lemma comprehension_reads (texts : list string) (ds : list datetime.date) :
  Forall2 reads_as texts ds ->
  comprehension (fun d => lift (strptime_Ymd d)) (map PStr texts) = (Return ds, []).
Proof.
  induction 1 as [|s d texts ds Hd _ IH]; [reflexivity|].
  cbn [map comprehension strptime_Ymd].
  rewrite (bind_lift_Return _ d) by (apply reads_strptime_date, Hd).
  rewrite (bind_Return_nil _ ds) by exact IH.
  reflexivity.
Qed.

(** (X12) The dates need not be zero-padded: when the first calendar
    node of an answer without the marker lists strings that each write a
    calendar date as year-month-day, with months and days of one digit
    or two, the check returns the single entry with exactly these dates,
    in order. *)
Theorem check_availability_reads {E : Env}
    (self : DachauMedVaccinationCenter) (response : requests.Response)
    (content : PyVal) (soup node : bs4.PageElement) (value : string)
    (intervals : PyVal) (texts : list string) (ds : list datetime.date) :
  content_parsed self response content soup ->
  first_with_attr "data-intervals" soup node ->
  bs4.attrs_getitem node "data-intervals" = Return (bs4.AStr value) ->
  json_loads value = Return intervals ->
  getitem intervals "dates" = Return (PList (map PStr texts)) ->
  Forall2 reads_as texts ds ->
  check_availability self = (Return [the_entry self ds], []).
Proof.
  intros Hparsed Hnode Hvalue Hloads Hdates Hreads.
  rewrite (check_availability_parsed self response content soup Hparsed).
  rewrite (find_first_with_attr _ _ _ Hnode).
  rewrite (bind_lift_Return _ (bs4.AStr value)) by exact Hvalue.
  rewrite (bind_lift_Return _ intervals) by exact Hloads.
  rewrite (bind_lift_Return _ _ _ Hdates).
  cbn [iterate]. rewrite (bind_lift_Return _ _ _ eq_refl).
  rewrite (bind_Return_nil _ ds) by (apply comprehension_reads, Hreads).
  reflexivity.
Qed.

Lemma calendar_first (notice intervals : string) :
  first_with_attr "data-intervals" (fixture.calendar_soup notice intervals)
    (fixture.calendar_node intervals).
Proof.
  exists [bs4.Tag "p" ∅ [bs4.NavigableString bs4.Text notice];
          bs4.NavigableString bs4.Text notice], [].
  split; [reflexivity|]. split; [reflexivity|].
  intros e [<-|[<-|[]]]; reflexivity.
Qed.

Lemma check_availability_reads_witness :
  let E := cases.env (cases.page_of fixture.page_html) cases.answer_short in
  check_availability fixture.center =
    (Return [the_entry fixture.center [fixture.june_1; fixture.june_3]], []).
Proof.
  apply (@check_availability_reads
           (cases.env (cases.page_of fixture.page_html) cases.answer_short)
           fixture.center cases.answer_short
           (PStr (fixture.calendar_html "Termine"
                    (fixture.intervals_text cases.dates_short)))
           (fixture.calendar_soup "Termine" (fixture.intervals_text cases.dates_short))
           (fixture.calendar_node (fixture.intervals_text cases.dates_short))
           (fixture.intervals_text cases.dates_short)
           (fixture.intervals_value cases.dates_short)
           cases.dates_short [fixture.june_1; fixture.june_3]);
    try reflexivity.
  - split; [reflexivity|]. split; [reflexivity|]. split; [|reflexivity].
    eexists. split; reflexivity.
  - apply calendar_first.
  - constructor; [apply strptime_date_reads; reflexivity|].
    constructor; [apply strptime_date_reads; reflexivity|]. constructor.
Defined.

(** (X13) When the body of the answer does not contain "Keine freien
    Termine", is JSON with a [content] that parses, and the first
    element with a [data-intervals] attribute holds a JSON object with a
    [dates] array, the dates are read in order and the first entry that
    is no date decides: after strings that write dates, an entry on
    which [strptime] raises makes the check raise that exception, a
    [TypeError] for an entry that is no string, whatever comes after
    it. *)
Theorem check_availability_first_failure {E : Env}
    (self : DachauMedVaccinationCenter) (response : requests.Response)
    (content : PyVal) (soup node : bs4.PageElement) (value : string)
    (intervals : PyVal) (texts : list string) (ds : list datetime.date)
    (bad : PyVal) (rest : list PyVal) (e : exn) :
  content_parsed self response content soup ->
  first_with_attr "data-intervals" soup node ->
  bs4.attrs_getitem node "data-intervals" = Return (bs4.AStr value) ->
  json_loads value = Return intervals ->
  getitem intervals "dates" = Return (PList (map PStr texts ++ bad :: rest)) ->
  Forall2 reads_as texts ds ->
  strptime_Ymd bad = Raise e ->
  check_availability self = (Raise e, []).
Proof.
  intros Hparsed Hnode Hvalue Hloads Hdates Hreads Hbad.
  rewrite (check_availability_parsed self response content soup Hparsed).
  rewrite (find_first_with_attr _ _ _ Hnode).
  rewrite (bind_lift_Return _ (bs4.AStr value)) by exact Hvalue.
  rewrite (bind_lift_Return _ intervals) by exact Hloads.
  rewrite (bind_lift_Return _ _ _ Hdates).
  cbn [iterate]. rewrite (bind_lift_Return _ _ _ eq_refl).
  assert (H : comprehension (fun d => lift (strptime_Ymd d))
                (map PStr texts ++ bad :: rest) = (Raise e, [])).
  { clear Hdates. induction Hreads as [|s d texts ds Hd _ IH];
      cbn [map app comprehension].
    - rewrite (bind_lift_Raise _ e) by exact Hbad. reflexivity.
    - cbn [strptime_Ymd].
      rewrite (bind_lift_Return _ d) by (apply reads_strptime_date, Hd).
      rewrite (bind_Raise _ e [] _ IH). reflexivity. }
  rewrite (bind_Raise _ e [] _ H). reflexivity.
Qed.

Lemma check_availability_first_failure_witness :
  let E := cases.env (cases.page_of fixture.page_html) cases.answer_number in
  rejected (PStr "03.06.2021") /\
  check_availability fixture.center = (Raise TypeError, []).
Proof.
  split; [intros d Hd; discriminate Hd|].
  apply (@check_availability_first_failure
           (cases.env (cases.page_of fixture.page_html) cases.answer_number)
           fixture.center cases.answer_number
           (PStr (fixture.calendar_html "Termine" cases.intervals_number_text))
           (fixture.calendar_soup "Termine" cases.intervals_number_text)
           (fixture.calendar_node cases.intervals_number_text)
           cases.intervals_number_text cases.intervals_number_value
           ["2021-06-01"] [fixture.june_1] (PInt 20210603) [PStr "03.06.2021"]
           TypeError);
    try reflexivity.
  - split; [reflexivity|]. split; [reflexivity|]. split; [|reflexivity].
    eexists. split; reflexivity.
  - apply calendar_first.
  - constructor; [apply strptime_date_reads; reflexivity|]. constructor.
Defined.

Lemma comprehension_valid (entries : list PyVal) (ds : list datetime.date) :
  fst (comprehension (fun d => lift (strptime_Ymd d)) entries) = Return ds ->
  Forall valid_date ds /\ length ds = length entries.
Proof.
  intros H. apply comprehension_inv in H.
  induction H as [|v d entries ds Hd _ [IH1 IH2]]; [split; [constructor|reflexivity]|].
  split; [|cbn; rewrite IH2; reflexivity].
  constructor; [|exact IH1]. apply (strptime_valid v). exact Hd.
Qed.

Lemma check_shape {E : Env} (self : DachauMedVaccinationCenter)
    (found : list (api.VaccineRound * api.AvailabilityInfo)) :
  fst (check_availability self) = Return found ->
  found = [] \/
  exists ds, found = [ ((vaccine_type self, round_num self),
                        api.mkAvailabilityInfo ds None) ] /\
             Forall valid_date ds.
Proof.
  unfold check_availability. intros H.
  apply fst_bind_Return in H as (response & _ & H).
  destruct (str.contains _ _); [left; injection H as <-; reflexivity|].
  apply fst_bind_Return in H as (body & _ & H).
  apply fst_bind_Return in H as (content & _ & H).
  apply fst_bind_Return in H as (soup & _ & H).
  destruct (bs4.find _ soup) as [data_node|].
  - apply fst_bind_Return in H as (value & _ & H).
    apply fst_bind_Return in H as (intervals & _ & H).
    apply fst_bind_Return in H as (entries & _ & H).
    apply fst_bind_Return in H as (entries' & _ & H).
    apply fst_bind_Return in H as (dates & Hdates & H).
    right. exists dates. cbn in H. injection H as <-.
    split; [reflexivity|]. apply (comprehension_valid entries' dates Hdates).
  - left. cbn in H. injection H as <-. reflexivity.
Qed.

(** (X14) Whatever the endpoint answers, a mapping the check returns is
    empty or has one entry: its key is the center's vaccine type and
    round, its "not available until" is empty, and all its dates are
    dates of the calendar. *)
Theorem check_availability_shape {E : Env} (self : DachauMedVaccinationCenter)
    (found : list (api.VaccineRound * api.AvailabilityInfo)) :
  fst (check_availability self) = Return found ->
  found = [] \/
  exists ds, found = [ ((vaccine_type self, round_num self),
                        api.mkAvailabilityInfo ds None) ] /\
             Forall valid_date ds.
Proof. apply check_shape. Qed.

Lemma check_availability_shape_witness :
  let E := fixture.env fixture.answer_dates None in
  [the_entry fixture.center [fixture.june_1; fixture.june_3]] = [] \/
  exists ds,
    [the_entry fixture.center [fixture.june_1; fixture.june_3]]
    = [ ((api.Biontech, Some 1), api.mkAvailabilityInfo ds None) ] /\
    Forall valid_date ds.
Proof.
  apply (@check_availability_shape (fixture.env fixture.answer_dates None)
           fixture.center
           [the_entry fixture.center [fixture.june_1; fixture.june_3]]).
  reflexivity.
Defined.

(** (X15) The empty mapping means one of two things only: whenever the
    check returns it, the body of the answer holds "Keine freien
    Termine", or the body holds no marker and is JSON whose parsed
    content has no element with a [data-intervals] attribute. *)
Theorem check_availability_empty_inv {E : Env} (self : DachauMedVaccinationCenter) :
  fst (check_availability self) = Return [] ->
  exists response,
    answered self response /\
    ( str.contains marker (requests.text response) = true \/
      exists content soup,
        content_parsed self response content soup /\
        (forall e, In e (bs4.descendants soup) ->
                   bs4.has_attr "data-intervals" e = false) ).
Proof.
  unfold check_availability. intros H.
  apply fst_bind_Return in H as (response & Hpost & H). cbn [lift fst] in Hpost.
  exists response. split; [exact Hpost|]. fold marker in H.
  destruct (str.contains marker _) eqn:Hmark; [left; reflexivity|]. right.
  apply fst_bind_Return in H as (body & Hjson & H).
  apply fst_bind_Return in H as (content & Hcontent & H).
  apply fst_bind_Return in H as (soup & Hsoup & H).
  cbn [lift fst] in Hjson, Hcontent, Hsoup.
  exists content, soup. split.
  { split; [exact Hpost|]. split; [exact Hmark|]. split; [|exact Hsoup].
    exists body. split; assumption. }
  destruct (bs4.find _ soup) as [data_node|] eqn:Hfind.
  - apply fst_bind_Return in H as (value & _ & H).
    apply fst_bind_Return in H as (intervals & _ & H).
    apply fst_bind_Return in H as (entries & _ & H).
    apply fst_bind_Return in H as (entries' & _ & H).
    apply fst_bind_Return in H as (dates & _ & H).
    cbn in H. discriminate H.
  - unfold bs4.find, bs4.find_all in Hfind.
    intros e He. rewrite <- is_tag_has_attr.
    apply (proj1 (head_filter_None _ _) Hfind e He).
Qed.

Lemma check_availability_empty_inv_witness :
  let E := fixture.env fixture.answer_plain None in
  exists response,
    answered fixture.center response /\
    ( str.contains marker (requests.text response) = true \/
      exists content soup,
        content_parsed fixture.center response content soup /\
        (forall e, In e (bs4.descendants soup) ->
                   bs4.has_attr "data-intervals" e = false) ).
Proof.
  apply (@check_availability_empty_inv (fixture.env fixture.answer_plain None)
           fixture.center).
  reflexivity.
Defined.



(** (X17) An answer without the marker that is no JSON makes the check
    raise what [json()] raises, and one that is JSON without a [content]
    key [KeyError('content')]; neither is taken for "nothing
    available". *)
Theorem check_availability_bad_body {E : Env}
    (self : DachauMedVaccinationCenter) (response : requests.Response) :
  answered self response ->
  str.contains marker (requests.text response) = false ->
  (forall e, requests.json response = Raise e ->
             check_availability self = (Raise e, [])) /\
  (forall items, requests.json response = Return (PDict items) ->
                 assoc "content" items = None ->
                 check_availability self = (Raise (KeyError "content"), [])).
Proof.
  intros Hpost Hmark. unfold check_availability.
  rewrite (bind_lift_Return _ response) by exact Hpost.
  fold marker. rewrite Hmark. split.
  - intros e ->. reflexivity.
  - intros items -> Hnone. rewrite (bind_lift_Return _ (PDict items) _ eq_refl).
    cbn [getitem]. rewrite Hnone. reflexivity.
Qed.

Lemma check_availability_bad_body_witness :
  (let E := cases.env (cases.page_of fixture.page_html) cases.answer_gateway in
   check_availability fixture.center = (Raise JSONDecodeError, [])) /\
  (let E := cases.env (cases.page_of fixture.page_html) cases.answer_refused in
   check_availability fixture.center = (Raise (KeyError "content"), [])).
Proof.
  split.
  - apply (proj1 (@check_availability_bad_body
                    (cases.env (cases.page_of fixture.page_html) cases.answer_gateway)
                    fixture.center cases.answer_gateway eq_refl eq_refl)).
    reflexivity.
  - apply (proj2 (@check_availability_bad_body
                    (cases.env (cases.page_of fixture.page_html) cases.answer_refused)
                    fixture.center cases.answer_refused eq_refl eq_refl)
                 [("success", PBool false)]);
      reflexivity.
Defined.

(** (X18) A calendar node of the wrong shape is not tolerated either:
    when the body of the answer does not contain "Keine freien Termine",
    is JSON with a [content] that parses, and the first element with a
    [data-intervals] attribute holds a text that is no JSON, the check
    raises what [json.loads] raises; when the text is JSON but no
    object, or an object whose [dates] is null, a boolean or a number,
    it raises a [TypeError]. *)
Theorem check_availability_bad_node {E : Env}
    (self : DachauMedVaccinationCenter) (response : requests.Response)
    (content : PyVal) (soup node : bs4.PageElement) (value : string) :
  content_parsed self response content soup ->
  first_with_attr "data-intervals" soup node ->
  bs4.attrs_getitem node "data-intervals" = Return (bs4.AStr value) ->
  (forall e, json_loads value = Raise e ->
             check_availability self = (Raise e, [])) /\
  (forall v, json_loads value = Return v ->
             (forall items, v <> PDict items) ->
             check_availability self = (Raise TypeError, [])) /\
  (forall items v, json_loads value = Return (PDict items) ->
                   assoc "dates" items = Some v ->
                   iterate v = Raise TypeError ->
                   check_availability self = (Raise TypeError, [])).
Proof.
  intros Hparsed Hnode Hvalue.
  rewrite (check_availability_parsed self response content soup Hparsed).
  rewrite (find_first_with_attr _ _ _ Hnode).
  rewrite (bind_lift_Return _ (bs4.AStr value)) by exact Hvalue.
  cbn [json_loads_attr]. repeat split.
  - intros e ->. reflexivity.
  - intros v -> Hv. destruct v; try reflexivity. exfalso. apply (Hv items). reflexivity.
  - intros items v -> Hdates Hiter.
    rewrite (bind_lift_Return _ (PDict items) _ eq_refl).
    cbn [getitem]. rewrite Hdates.
    rewrite (bind_lift_Return _ v _ eq_refl).
    rewrite (bind_lift_Raise _ TypeError) by exact Hiter. reflexivity.
Qed.

Lemma check_availability_bad_node_witness :
  let E := cases.env (cases.page_of fixture.page_html) cases.answer_not_json_attr in
  check_availability fixture.center = (Raise JSONDecodeError, []).
Proof.
  apply (@check_availability_bad_node
           (cases.env (cases.page_of fixture.page_html) cases.answer_not_json_attr)
           fixture.center cases.answer_not_json_attr
           (PStr (fixture.calendar_html "Termine" "heute"))
           (fixture.calendar_soup "Termine" "heute")
           (fixture.calendar_node "heute") "heute").
  - split; [reflexivity|]. split; [reflexivity|]. split; [|reflexivity].
    eexists. split; reflexivity.
  - apply calendar_first.
  - reflexivity.
  - reflexivity.
Defined.

(** ** Discovery and check together *)

(** (X19) What a discovered center reports is filed under the vaccine
    type and round the discovery was called with: a non-empty mapping
    returned by the check of a center of [discover(url, vt, rn)] has the
    one key [(vt, rn)]. *)
Theorem discovered_center_key {E : Env} (url : string) (vt : api.VaccineType)
    (rn : option Z) (centers : list DachauMedVaccinationCenter)
    (c : DachauMedVaccinationCenter)
    (found : list (api.VaccineRound * api.AvailabilityInfo)) :
  fst (_get_vaccination_centers_for url vt rn) = Return centers ->
  In c centers ->
  fst (check_availability c) = Return found ->
  found <> [] ->
  map fst found = [(vt, rn)].
Proof.
  intros Hdisc Hin Hcheck Hsome.
  destruct (discovery_shape url vt rn centers Hdisc)
    as (response & soup & shop_list & endpoint & nonce & _ & _ & -> & _).
  apply in_map_iff in Hin as (opt & <- & _).
  destruct (check_shape _ found Hcheck) as [->|(ds & -> & _)]; [congruence|].
  reflexivity.
Qed.

Lemma discovered_center_key_witness :
  let E := fixture.env fixture.answer_dates None in
  map fst [the_entry fixture.center [fixture.june_1; fixture.june_3]]
  = [(api.Biontech, Some 1)].
Proof.
  apply (@discovered_center_key (fixture.env fixture.answer_dates None)
           BIONTECH_1_URL api.Biontech (Some 1)
           (fixture.centers_of BIONTECH_1_URL api.Biontech (Some 1))
           fixture.center
           [the_entry fixture.center [fixture.june_1; fixture.june_3]]).
  - reflexivity.
  - left. reflexivity.
  - reflexivity.
  - discriminate.
Defined.

(** ** Scripts of other shapes *)

(** (X20) On a fetched page that has the form, the shop list with a
    [value] on every option, and the script tag, a script tag that does
    not hold exactly one string, an empty one for instance, makes
    discovery raise an [AttributeError], not the [ValueError] of a
    missing script. *)
Theorem discovery_script_without_string {E : Env} (url : string)
    (vt : api.VaccineType) (rn : option Z) (response : requests.Response)
    (soup form shop_list salon_extra : bs4.PageElement) :
  fetched url response soup ->
  bs4.find is_form soup = Some form ->
  bs4.find is_shop_list soup = Some shop_list ->
  (forall opt, In opt (options_of shop_list) -> bs4.has_attr "value" opt = true) ->
  bs4.find is_extra_script soup = Some salon_extra ->
  bs4.string_ salon_extra = None ->
  _get_vaccination_centers_for url vt rn = (Raise AttributeError, []).
Proof.
  intros Hpage Hform Hlist Hvalues Hscript Hstring.
  rewrite (discovery_fetched url vt rn response soup Hpage).
  rewrite Hform, Hlist.
  rewrite (bind_Return_nil _ _ _ (shops_of_options _ Hvalues)).
  rewrite Hscript, Hstring. reflexivity.
Qed.

Lemma discovery_script_without_string_witness :
  let E := cases.env (cases.page_of cases.empty_script_html) fixture.answer_dates in
  _get_vaccination_centers_for BIONTECH_1_URL api.Biontech (Some 1)
  = (Raise AttributeError, []).
Proof.
  apply (@discovery_script_without_string
           (cases.env (cases.page_of cases.empty_script_html) fixture.answer_dates)
           BIONTECH_1_URL api.Biontech (Some 1)
           (cases.page_of cases.empty_script_html) cases.empty_script_soup
           (cases.form_with [ cases.shop_list_with [cases.option_dachau] ])
           (cases.shop_list_with [cases.option_dachau])
           (bs4.Tag "script" {[ "id" := bs4.AStr "salon-js-extra" ]} []));
    try reflexivity.
  - repeat split; reflexivity.
  - intros o [<-|[]]. reflexivity.
Defined.

Lemma split_first_absent (s : string) :
  all_chars not_equals_sign s = true -> str.split_first "=" s = None.
Proof.
  induction s as [|c s IH]; [reflexivity|].
  cbn [all_chars]. intros H. apply andb_prop in H as [Hc Hs].
  cbn [str.split_first String.prefix].
  destruct (ascii_dec "=" c) as [<-|_]; [discriminate Hc|].
  rewrite (IH Hs). reflexivity.
Qed.

(** (X21) A script without any [=] leaves nothing to parse: the text
    handed to [json.loads] is the empty string. *)
Theorem payload_of_no_assignment (script : string) :
  all_chars not_equals_sign script = true ->
  payload_of script = EmptyString.
Proof.
  intros H. unfold payload_of, str.partition.
  rewrite (split_first_absent script H). reflexivity.
Qed.

Lemma payload_of_no_assignment_witness :
  payload_of "window.salon" = EmptyString.
Proof. apply payload_of_no_assignment. reflexivity. Defined.
